(** * rightmove-by-notice-period: the scrape, filter, persist and notify pipeline

    A shallow embedding of the Python code published in the post
    "Using Python to work around a 2 month notice period"
    (rightmove_scraper.py, listing.py and sheet.py), and the properties of
    the pipeline that hold on it.

    Python values are modelled by a small value type, exceptions by an
    error result, and the mutable world the script acts on (the parsed
    configuration, the worksheet, the clock, the standard output, the mail
    outbox and the list objects it allocates) by explicit state passing. *)

From Stdlib Require Import ZArith String Ascii List Lia.
From stdpp Require Import base option list strings pretty gmap.

Local Open Scope string_scope.
Local Open Scope list_scope.

(** ** Python values, exceptions and results *)

(** The values the scraped attributes of a listing take: [None], a [str],
    or a list of [str] (the nearest stations). *)
Inductive pyval : Type :=
  | VNone
  | VStr (s : string)
  | VList (l : list string).

#[global] Instance pyval_eq_dec : EqDecision pyval.
Proof. solve_decision. Defined.

(** The exceptions the modelled code can raise. *)
Inductive exn : Type :=
  | NameError (name : string)
  | AttributeError (name : string)
  | KeyError (key : string)
  | ValueError
  | TypeError
  | OverflowError
  | NoSectionError (section : string)
  | NoOptionError (option section : string)
  | RequestException
  | SMTPException.

Inductive result (A : Type) : Type :=
  | Ok (a : A)
  | Raise (e : exn).
Arguments Ok {A} a.
Arguments Raise {A} e.

#[global] Instance exn_eq_dec : EqDecision exn.
Proof. solve_decision. Defined.
#[global] Instance result_eq_dec {A} `{EqDecision A} : EqDecision (result A).
Proof. solve_decision. Defined.

#[global] Instance result_ret : MRet result := fun _ a => Ok a.
#[global] Instance result_bind : MBind result := fun _ _ f r =>
  match r with
  | Ok a => f a
  | Raise e => Raise e
  end.

Definition is_Ok {A} (r : result A) : bool :=
  match r with Ok _ => true | Raise _ => false end.

(** ** The world the script runs in *)

(** A calendar date is represented by its proleptic Gregorian ordinal
    ([date.toordinal()]): Python orders dates and adds [timedelta]s to them
    exactly as it orders and adds these ordinals. *)
Definition date := Z.

(** A reading of [datetime.datetime.now()]: the date and the time elapsed
    since midnight, in microseconds. *)
Record datetime : Type := { date_part : date; time_part : Z }.

(** A [ConfigParser]: its sections in file order, each with its options.
    Option names are stored as the parser stores them, passed through
    [optionxform] (lower case). No [DEFAULT] section and no [%]
    interpolation syntax are used by config.ini. *)
Definition ConfigParser := list (string * list (string * string)).

Record World : Type := {
  config : ConfigParser;
  heap : list (list (string * string));
  worksheet : list (list pyval);
  ticks : nat;
  stdout : list string;
  outbox : list (gmap string string * string)
}.

Definition set_heap (h : list (list (string * string))) (w : World) : World :=
  {| config := config w; heap := h; worksheet := worksheet w;
     ticks := ticks w; stdout := stdout w; outbox := outbox w |}.
Definition set_worksheet (ws : list (list pyval)) (w : World) : World :=
  {| config := config w; heap := heap w; worksheet := ws;
     ticks := ticks w; stdout := stdout w; outbox := outbox w |}.
Definition set_ticks (n : nat) (w : World) : World :=
  {| config := config w; heap := heap w; worksheet := worksheet w;
     ticks := n; stdout := stdout w; outbox := outbox w |}.
Definition set_stdout (out : list string) (w : World) : World :=
  {| config := config w; heap := heap w; worksheet := worksheet w;
     ticks := ticks w; stdout := out; outbox := outbox w |}.
Definition set_outbox (o : list (gmap string string * string)) (w : World) : World :=
  {| config := config w; heap := heap w; worksheet := worksheet w;
     ticks := ticks w; stdout := stdout w; outbox := o |}.

(** The line feed. *)
Definition nl : string := String (ascii_of_nat 10) EmptyString.

(** A Python computation: it reads and updates the world and either
    returns a value or raises; effects made before a raise persist. *)
Definition M (A : Type) : Type := World -> result A * World.

#[global] Instance M_ret : MRet M := fun _ a w => (Ok a, w).
#[global] Instance M_bind : MBind M := fun _ _ f m w =>
  match m w with
  | (Ok a, w') => f a w'
  | (Raise e, w') => (Raise e, w')
  end.

Definition lift {A} (r : result A) : M A := fun w => (r, w).
Definition raise {A} (e : exn) : M A := lift (Raise e).
Definition gets {A} (f : World -> A) : M A := fun w => (Ok (f w), w).
Definition modify (f : World -> World) : M unit := fun w => (Ok tt, f w).

Definition print (s : string) : M unit :=
  modify (fun w => set_stdout (stdout w ++ [s]) w).

(** ** listing.py: the Listing object *)

(** A [Listing] always carries the [url] its constructor was given; the
    other attributes are those [scrape_details] has set so far. *)
Record Listing : Type := { url : string; details : gmap string pyval }.

(** [vars(listing)]: the attribute dictionary of the object. *)
Definition vars (listing : Listing) : gmap string pyval :=
  <["url" := VStr (url listing)]> (details listing).

(** [listing.name] for an attribute set by [scrape_details]. *)
Definition getattr (listing : Listing) (name : string) : result pyval :=
  match vars listing !! name with
  | Some v => Ok v
  | None => Raise (AttributeError name)
  end.

(** ** sheet.py: the worksheet *)

(** [worksheet.insert_row(values, index)] of gspread: the row is inserted
    at the 1-based [index] and the rows from there on move down; rows of
    the grid below the last filled one are blank. *)
Definition insert_row (values : list pyval) (index : nat)
    (ws : list (list pyval)) : list (list pyval) :=
  let ws' := ws ++ replicate (index - 1 - length ws) [] in
  take (index - 1) ws' ++ values :: drop (index - 1) ws'.

Section Sheet.
(** [propertyMappings]: column header to attribute name, in column
    order; defined in a part of sheet.py that the post elides. *)
Variable propertyMappings : list (string * string).

(** [Sheet.does_cell_exist_with_value], elided by the post: it reads the
    worksheet and answers. *)
Variable does_cell_exist_with_value : list (list pyval) -> string -> bool.

Fixpoint build_row_loop (attributes : list string)
    (listing_details : gmap string pyval) : result (list pyval) :=
  match attributes with
  | [] => Ok []
  | attribute :: rest =>
      match listing_details !! attribute with
      | Some v => cells ← build_row_loop rest listing_details; mret (v :: cells)
      | None => Raise (KeyError attribute)
      end
  end.

Definition build_row (listing : Listing) : result (list pyval) :=
  let listing_details := vars listing in
  build_row_loop (propertyMappings.*2) listing_details.

Fixpoint add_listings_loop (listings : list Listing)
    (written duplicates : nat) : M (nat * nat) :=
  match listings with
  | [] => mret (written, duplicates)
  | listing :: rest =>
      is_existing_listing ←
        gets (fun w => does_cell_exist_with_value (worksheet w) (url listing));
      if negb is_existing_listing then
        row ← lift (build_row listing);
        modify (fun w => set_worksheet (insert_row row 2 (worksheet w)) w);;
        add_listings_loop rest (S written) duplicates
      else
        add_listings_loop rest written (S duplicates)
  end.

Definition add_listings (listings : list Listing) : M (nat * nat) :=
  print "Writing listings to sheet...";;
  add_listings_loop listings 0%nat 0%nat.
End Sheet.

(** ** configparser: the calls the script makes on [config] *)

Definition lower_ascii (c : ascii) : ascii :=
  let n := nat_of_ascii c in
  if (65 <=? n)%nat && (n <=? 90)%nat then ascii_of_nat (n + 32) else c.

Fixpoint lower (s : string) : string :=
  match s with
  | EmptyString => EmptyString
  | String c rest => String (lower_ascii c) (lower rest)
  end.

(** [optionxform]: option names are compared in lower case. *)
Definition optionxform (option : string) : string := lower option.

Fixpoint assoc {A} (key : string) (l : list (string * A)) : option A :=
  match l with
  | [] => None
  | (k, v) :: rest => if String.eqb k key then Some v else assoc key rest
  end.

Definition config_has_section (section : string) : M bool :=
  gets (fun w => bool_decide (is_Some (assoc section (config w)))).

(** [config.get(section, option)]: raises when the section or the option
    is absent, returns the (possibly empty) string otherwise. *)
Definition config_get (section option : string) : M string :=
  cfg ← gets config;
  match assoc section cfg with
  | None => raise (NoSectionError section)
  | Some options =>
      match assoc (optionxform option) options with
      | None => raise (NoOptionError (optionxform option) section)
      | Some value => mret value
      end
  end.

(** A Python list object lives in the heap and is handled through its
    reference, so that a mutation is seen by every holder of the
    reference. *)
Definition ref := nat.

Definition new_list (items : list (string * string)) : M ref :=
  fun w => (Ok (length (heap w)), set_heap (heap w ++ [items]) w).

Definition list_append (r : ref) (item : string * string) : M unit :=
  modify (fun w => set_heap (alter (fun items => items ++ [item]) r (heap w)) w).

Definition list_read (r : ref) : M (list (string * string)) :=
  gets (fun w => default [] (heap w !! r)).

(** [config.items(section)]: a new list, built by a comprehension over
    the options of the section, is returned on every call. *)
Definition config_items (section : string) : M ref :=
  cfg ← gets config;
  match assoc section cfg with
  | None => raise (NoSectionError section)
  | Some options => new_list options
  end.

(** [dict(items)]: later pairs override earlier ones. *)
Definition dict (items : list (string * string)) : gmap string string :=
  foldl (fun d kv => <[kv.1 := kv.2]> d) ∅ items.

(** ** datetime: dates, [timedelta] and [strptime] *)

Module Datetime.
Local Open Scope Z_scope.

(** [date.max.toordinal()]: the ordinal of 31 December 9999. *)
Definition max_ordinal : Z := 3652059.

Definition is_leap (y : Z) : bool :=
  (y mod 4 =? 0) && (negb (y mod 100 =? 0) || (y mod 400 =? 0)).

Definition days_in_month (y m : Z) : Z :=
  if m =? 2 then (if is_leap y then 29 else 28)
  else if (m =? 4) || (m =? 6) || (m =? 9) || (m =? 11) then 30
  else 31.

Definition days_before_year (y : Z) : Z :=
  let y' := y - 1 in
  y' * 365 + y' / 4 - y' / 100 + y' / 400.

Fixpoint days_before_month_aux (y : Z) (months : nat) : Z :=
  match months with
  | O => 0
  | S k => days_before_month_aux y k + days_in_month y (Z.of_nat (S k))
  end.

(** Days of year [y] before the first day of month [m]. *)
Definition days_before_month (y m : Z) : Z :=
  days_before_month_aux y (Z.to_nat (m - 1)).

(** [date(y, m, d)]: the ordinal of a valid date, [ValueError] for a
    year, month or day out of range. *)
Definition ymd2ord (y m d : Z) : result date :=
  if (1 <=? y) && (y <=? 9999) && (1 <=? m) && (m <=? 12)
     && (1 <=? d) && (d <=? days_in_month y m)
  then Ok (days_before_year y + days_before_month y m + d)
  else Raise ValueError.

Definition is_digit (c : ascii) : bool :=
  let n := nat_of_ascii c in (48 <=? n)%nat && (n <=? 57)%nat.

Definition digit (c : ascii) : Z := Z.of_nat (nat_of_ascii c) - 48.

(** The fields of a text between its ["/"] separators. *)
Fixpoint split_slash (s : string) : list string :=
  match s with
  | EmptyString => [EmptyString]
  | String c rest =>
      if Ascii.eqb c "/" then EmptyString :: split_slash rest
      else match split_slash rest with
           | field :: fields => String c field :: fields
           | [] => [String c EmptyString]
           end
  end.

(** [%d]: the alternatives [3[0-1]], [[1-2]\d], [0[1-9]], [[1-9]] and
    a space before [[1-9]]. *)
Definition directive_d (field : string) : option Z :=
  match field with
  | String a (String b EmptyString) =>
      if Ascii.eqb a "3" && (Ascii.eqb b "0" || Ascii.eqb b "1")
      then Some (30 + digit b)
      else if (Ascii.eqb a "1" || Ascii.eqb a "2") && is_digit b
      then Some (10 * digit a + digit b)
      else if (Ascii.eqb a "0" || Ascii.eqb a " ")
              && is_digit b && negb (Ascii.eqb b "0")
      then Some (digit b)
      else None
  | String a EmptyString =>
      if is_digit a && negb (Ascii.eqb a "0") then Some (digit a) else None
  | _ => None
  end.

(** [%m]: the alternatives [1[0-2]], [0[1-9]] and [[1-9]]. *)
Definition directive_m (field : string) : option Z :=
  match field with
  | String a (String b EmptyString) =>
      if Ascii.eqb a "1"
         && (Ascii.eqb b "0" || Ascii.eqb b "1" || Ascii.eqb b "2")
      then Some (10 + digit b)
      else if Ascii.eqb a "0" && is_digit b && negb (Ascii.eqb b "0")
      then Some (digit b)
      else None
  | String a EmptyString =>
      if is_digit a && negb (Ascii.eqb a "0") then Some (digit a) else None
  | _ => None
  end.

(** [%Y]: exactly four digits. *)
Definition directive_Y (field : string) : option Z :=
  match field with
  | String a (String b (String c (String d EmptyString))) =>
      if is_digit a && is_digit b && is_digit c && is_digit d
      then Some (1000 * digit a + 100 * digit b + 10 * digit c + digit d)
      else None
  | _ => None
  end.

(** [datetime.datetime.strptime(x, "%d/%m/%Y").date()] on a [str]: the
    whole text has to match day, ["/"], month, ["/"], four-digit year,
    and name a date of the calendar; [ValueError] otherwise. *)
Definition strptime_dmY (x : string) : result date :=
  match split_slash x with
  | [d; m; y] =>
      match directive_d d, directive_m m, directive_Y y with
      | Some day, Some month, Some year => ymd2ord year month day
      | _, _, _ => Raise ValueError
      end
  | _ => Raise ValueError
  end.

(** [datetime.timedelta(weeks=n)], as a number of days. *)
Definition timedelta_weeks (n_weeks : Z) : result Z :=
  let days := 7 * n_weeks in
  if (Z.abs days <=? 999999999) then Ok days else Raise OverflowError.

(** [today + delta] on dates. *)
Definition date_add (d : date) (days : Z) : result date :=
  let o := d + days in
  if (1 <=? o) && (o <=? max_ordinal) then Ok o else Raise OverflowError.

(** No ["/"] occurs in the text. *)
Fixpoint no_slash (s : string) : bool :=
  match s with
  | EmptyString => true
  | String c rest => negb (Ascii.eqb c "/") && no_slash rest
  end.

(** The text [date.strftime("%d/%m/%Y")] gives for day [d] of month [m]
    of year [y]: zero-padded day and month, four-digit year. *)
Definition chr (n : Z) : ascii := ascii_of_nat (48 + Z.to_nat n).

Definition two_digits (n : Z) : string :=
  String (chr (n / 10)) (String (chr (n mod 10)) EmptyString).

Definition four_digits (n : Z) : string :=
  String (chr (n / 1000)) (String (chr (n / 100 mod 10))
    (String (chr (n / 10 mod 10)) (String (chr (n mod 10)) EmptyString))).

Definition format_dmY (d m y : Z) : string :=
  two_digits d +:+ "/" +:+ two_digits m +:+ "/" +:+ four_digits y.

(** The texts the directives of ["%d/%m/%Y"] accept, by the number they
    stand for. A day is written with two digits, or, up to 9, with one
    digit or a space and one digit; a month with two digits or, up to 9,
    with one; a year with exactly four digits. *)
Definition one_digit (n : Z) : string := String (chr n) EmptyString.

Definition day_text (field : string) (d : Z) : Prop :=
  1 <= d <= 31
  /\ (field = two_digits d
      \/ (d <= 9 /\ (field = one_digit d \/ field = String " " (one_digit d)))).

Definition month_text (field : string) (m : Z) : Prop :=
  1 <= m <= 12 /\ (field = two_digits m \/ (m <= 9 /\ field = one_digit m)).

Definition year_text (field : string) (y : Z) : Prop :=
  0 <= y <= 9999 /\ field = four_digits y.

(** The text [s] is a date of the calendar written in day/month/year
    order, and [o] is that date: a day text, ["/"], a month text, ["/"],
    a year text and nothing else, naming a day that exists in a year from
    1 to 9999. *)
Definition date_text (s : string) (o : date) : Prop :=
  exists fd fm fy d m y,
    s = fd +:+ "/" +:+ fm +:+ "/" +:+ fy
    /\ day_text fd d /\ month_text fm m /\ year_text fy y
    /\ ymd2ord y m d = Ok o.
End Datetime.

(** ** requests: the answer of the remote site *)

(** What [requests.get(url)] returns when the call completes; a transport
    failure raises instead. *)
Record Response : Type := { status_code : Z; text : string }.

(** The same site, every completed response given the status [status]. *)
Definition with_status (status : Z) (requests_get : string -> result Response)
    (url : string) : result Response :=
  match requests_get url with
  | Ok response => Ok {| status_code := status; text := text response |}
  | Raise e => Raise e
  end.

(** ** The system clock *)

(** [datetime.datetime.now()]: one reading of the clock, whose successive
    readings are [clock 0], [clock 1], ... *)
Definition datetime_now (clock : nat -> datetime) : M datetime :=
  fun w => (Ok (clock (ticks w)), set_ticks (S (ticks w)) w).

(** [date.today()] *)
Definition date_today (clock : nat -> datetime) : M date :=
  now ← datetime_now clock; mret (date_part now).

(** ** rightmove_scraper.py and listing.py *)

Section Search.
(** The remote site: what [requests.get] does for each URL. *)
Variable requests_get : string -> result Response.

(** BeautifulSoup documents and the lookups of the scraper and of the
    listing on them; the post elides the bodies of the [get_] methods. *)
Variable DOM : Type.
Variable BeautifulSoup : string -> DOM.
Variable get_location_name : DOM -> string.
Variable get_listing_urls : DOM -> list string.
Variable get_letting_information : DOM -> gmap string pyval.
Variable get_description : DOM -> pyval.
Variable get_price : DOM -> pyval.
Variable get_address : DOM -> pyval.
Variable get_nearest_stations : DOM -> pyval.

(** The successive readings of the system clock. *)
Variable clock : nat -> datetime.

(** Library and module-level names the snippets use. *)
Variable strftime : date -> string -> string.
Variable urlencode : list (string * string) -> string.
Variable base_search_url : string.

(** A method the post elides. *)
Variable remove_duplicate_listings : list Listing -> list Listing.

(** *** Listing *)

Definition new_Listing (url : string) : Listing :=
  {| url := url; details := ∅ |}.

Definition setattr (name : string) (v : pyval) (listing : Listing) : Listing :=
  {| url := url listing; details := <[name := v]> (details listing) |}.

Definition get_dom (listing : Listing) : M DOM :=
  response ← lift (requests_get (url listing));
  let html := text response in
  mret (BeautifulSoup html).

(** [dict.get(key)]: [None] for a missing key. *)
Definition dict_get (d : gmap string pyval) (key : string) : pyval :=
  default VNone (d !! key).

(** The assignments of [scrape_details] that the post shows; the object
    is updated in place, here the updated object is returned. *)
Definition scrape_details (listing : Listing) : M Listing :=
  dom ← get_dom listing;
  let letting_information := get_letting_information dom in
  today ← date_today clock;
  let listing := setattr "date_scraped" (VStr (strftime today "%d/%m/%Y")) listing in
  let listing := setattr "description" (get_description dom) listing in
  let listing := setattr "price" (get_price dom) listing in
  let listing := setattr "location" (get_address dom) listing in
  let listing := setattr "nearest_stations" (get_nearest_stations dom) listing in
  let listing := setattr "date_available"
                   (dict_get letting_information "date_available") listing in
  let listing := setattr "furnished"
                   (dict_get letting_information "furnishing") listing in
  let listing := setattr "deposit"
                   (dict_get letting_information "deposit") listing in
  mret listing.

(** *** RightmoveScraper: searching *)

Definition build_search_url (location_identifier : string) : M string :=
  parameters ← config_items "filters";
  list_append parameters ("locationIdentifier", location_identifier);;
  items ← list_read parameters;
  let search_url := base_search_url +:+ urlencode items in
  mret search_url.

(** [for listing in listings: listing.scrape_details()] *)
Fixpoint scrape_details_all (listings : list Listing) : M (list Listing) :=
  match listings with
  | [] => mret []
  | listing :: rest =>
      listing' ← scrape_details listing;
      rest' ← scrape_details_all rest;
      mret (listing' :: rest')
  end.

Definition scrape (url : string) : M (list Listing) :=
  response ← lift (requests_get url);
  let html := text response in
  let listing_dom := BeautifulSoup html in
  let location := get_location_name listing_dom in
  print ("Scraping properties in " +:+ location +:+ "...");;
  let listing_urls := get_listing_urls listing_dom in
  let listings := new_Listing <$> listing_urls in
  scrape_details_all listings.

(** The [for] loop of [scrape_listings], from the listings gathered so
    far. *)
Fixpoint scrape_listings_loop (location_identifiers : list string)
    (listings : list Listing) : M (list Listing) :=
  match location_identifiers with
  | [] => mret listings
  | identifier :: rest =>
      url ← build_search_url identifier;
      found ← scrape url;
      scrape_listings_loop rest (listings ++ found)
  end.

Definition scrape_listings (location_identifiers : list string)
    : M (list Listing) :=
  listings ← scrape_listings_loop location_identifiers [];
  let listings := remove_duplicate_listings listings in
  mret listings.
End Search.

(** *** RightmoveScraper: filtering on the date available *)

(** [convert_date], the helper local to
    [get_listings_available_after_n_weeks]: [strptime] accepts a [str]
    only. *)
Definition convert_date (x : pyval) : result date :=
  match x with
  | VStr s => Datetime.strptime_dmY s
  | _ => Raise TypeError
  end.

Section Filter.
Variable clock : nat -> datetime.
Variable int : string -> result Z.

(** [Listing.has_date_available], elided by the post. *)
Variable has_date_available : Listing -> bool.

(** Line 249 calls [convert_daye], a name that no scope shown in the
    post binds (the local helper is [convert_date]). Python resolves a
    free name in the globals of the module when the call is evaluated,
    and raises [NameError] when it finds none: [None] is the module as
    published. *)
Variable convert_daye : option (pyval -> result date).

(** The condition of the list comprehension, for one listing:
    [listing.has_date_available() and
     convert_daye(listing.date_available) > available_after]. *)
Definition available_after_cutoff (available_after : date)
    (listing : Listing) : result bool :=
  if has_date_available listing then
    match convert_daye with
    | None => Raise (NameError "convert_daye")
    | Some f =>
        x ← getattr listing "date_available";
        d ← f x;
        mret (available_after <? d)%Z
    end
  else mret false.

(** [[listing for listing in listings if cond(listing)]] *)
Fixpoint comprehension (cond : Listing -> result bool)
    (listings : list Listing) : result (list Listing) :=
  match listings with
  | [] => mret []
  | listing :: rest =>
      keep ← cond listing;
      kept ← comprehension cond rest;
      mret (if keep : bool then listing :: kept else kept)
  end.

Definition get_listings_available_after_n_weeks (n_weeks : Z)
    (listings : list Listing) : M (list Listing) :=
  if (length listings =? 0)%nat then mret listings
  else
    print ("Filtering listings down only those available after "
           +:+ pretty n_weeks +:+ " weeks from now");;
    now ← datetime_now clock;
    let today := date_part now in
    delta ← lift (Datetime.timedelta_weeks n_weeks);
    available_after ← lift (Datetime.date_add today delta);
    lift (comprehension (available_after_cutoff available_after) listings).

(** A [str] is true when it is not empty. *)
Definition truthy (s : string) : bool := negb (String.eqb s "").

Definition filter_listings (listings : list Listing) : M (list Listing) :=
  value ← config_get "filters" "availableAfterNWeeks";
  if truthy value then
    value ← config_get "filters" "availableAfterNWeeks";
    n_weeks ← lift (int value);
    get_listings_available_after_n_weeks n_weeks listings
  else mret listings.
End Filter.

(** *** RightmoveScraper: persistence and notification *)

Section Process.
Variable propertyMappings : list (string * string).
Variable does_cell_exist_with_value : list (list pyval) -> string -> bool.
Variable sheet_name : string.

(** What the SMTP exchange of [Mailer.send_mail] comes to. *)
Variable smtp : gmap string string -> string -> result unit.

(** [Mailer(mailer_config).send_mail(message)]: one dispatch, recorded
    in the outbox, which may fail. *)
Definition send_mail (mailer_config : gmap string string)
    (message : string) : M unit :=
  modify (fun w => set_outbox (outbox w ++ [(mailer_config, message)]) w);;
  lift (smtp mailer_config message).

(** The message of [process_listings], after [dedent]. *)
Definition summary (eligible written duplicates : nat) : string :=
  nl +:+ pretty eligible +:+ " eligible properties were found." +:+ nl
  +:+ pretty written +:+ " new properties were added to the worksheet "
  +:+ sheet_name +:+ "." +:+ nl
  +:+ pretty duplicates
  +:+ " properties already existed on the sheet and were ignored." +:+ nl.

Definition process_listings (listings : list Listing) : M unit :=
  '(written, duplicates) ←
    add_listings propertyMappings does_cell_exist_with_value listings;
  let message := summary (length listings) written duplicates in
  print message;;
  has_mailer ← config_has_section "mailer";
  if has_mailer && negb (written =? 0)%nat then
    items ← config_items "mailer";
    pairs ← list_read items;
    let mailer_config := dict pairs in
    send_mail mailer_config message
  else mret tt.
End Process.

(** [sub] occurs in [s]. *)
Definition contains (sub s : string) : Prop :=
  exists before after, s = before +:+ sub +:+ after.

(** The attributes a listing has once [scrape_details] has run: [url],
    set by the constructor, and those [scrape_details] assigns. *)
Definition listing_attributes : list string :=
  ["url"; "date_scraped"; "description"; "price"; "location";
   "nearest_stations"; "date_available"; "furnished"; "deposit"].

(** ** Methods of the repository that the post does not show *)

(** Modelled from the spec: the body of [Sheet.does_cell_exist_with_value]
    is missing from the post. The spec has [exists(url)] true if any
    existing row's URL column equals [url] exactly; [url_column] is the
    0-based position of that column. *)
Definition does_cell_exist_with_value (url_column : nat)
    (ws : list (list pyval)) (value : string) : bool :=
  existsb (fun row => bool_decide (row !! url_column = Some (VStr value))) ws.

(** Modelled from the spec: the body of
    [RightmoveScraper.remove_duplicate_listings] is missing from the post.
    The spec deduplicates the full candidate sequence by [url], keeping
    the first occurrence, insertion order otherwise preserved; [seen] is
    the set of URLs kept so far. *)
Fixpoint remove_duplicates_from (seen : gset string)
    (listings : list Listing) : list Listing :=
  match listings with
  | [] => []
  | listing :: rest =>
      if bool_decide (url listing ∈ seen)
      then remove_duplicates_from seen rest
      else listing :: remove_duplicates_from ({[url listing]} ∪ seen) rest
  end.

Definition remove_duplicate_listings (listings : list Listing) : list Listing :=
  remove_duplicates_from ∅ listings.

(** ** The availability of the spec *)



(** ** A small run: configuration, site, clock and sheet *)

Module Scenario.

(** config.ini of the post, as the parser holds it. *)
Definition filters : list (string * string) :=
  [("availableafternweeks", "7"); ("radius", "1"); ("minprice", "0");
   ("maxprice", "1500"); ("minbedrooms", "2"); ("maxbedrooms", "3");
   ("dontshow", "houseShare,retirement,student");
   ("furnishtypes", "unfurnished,partFurnished")].

Definition config_ini : ConfigParser :=
  [("locations", [("identifiers", "REGION^93802,REGION^87521")]);
   ("filters", filters)].

Definition config_with_mailer : ConfigParser :=
  config_ini ++ [("mailer", [("recipient", "me@example.com")])].

(** The same file with the lead time left empty, and with the option
    taken out. *)
Definition config_empty_lead_time : ConfigParser :=
  [("filters", [("availableafternweeks", ""); ("radius", "1")])].

Definition config_no_lead_time : ConfigParser :=
  [("filters", [("radius", "1")])].

Definition header : list pyval := [VStr "URL"; VStr "Date available"].

Definition world (cfg : ConfigParser) : World :=
  {| config := cfg; heap := []; worksheet := [header]; ticks := 0;
     stdout := []; outbox := [] |}.

Definition propertyMappings : list (string * string) :=
  [("URL", "url"); ("Date available", "date_available")].

Definition sheet_name : string := "Listings".

Definition smtp (mailer_config : gmap string string) (message : string)
    : result unit := Ok tt.

(** 27 June 2020, 22:12:03. *)
Definition clock (n : nat) : datetime :=
  {| date_part := 737603%Z; time_part := 79923000000%Z |}.

Definition strftime (d : date) (format : string) : string := "27/06/2020".

Fixpoint urlencode (items : list (string * string)) : string :=
  match items with
  | [] => ""
  | (k, v) :: rest =>
      k +:+ "=" +:+ v +:+ (match rest with [] => "" | _ => "&" end)
      +:+ urlencode rest
  end.

Definition base_search_url : string :=
  "https://www.rightmove.co.uk/property-to-rent/find.html?".

Definition search_url (identifier : string) : string :=
  base_search_url +:+ urlencode (filters ++ [("locationIdentifier", identifier)]).

(** What the scraper reads off a page. *)
Record Page : Type := {
  location_name : string;
  listing_urls : list string;
  letting_information : gmap string pyval
}.

Definition BeautifulSoup (html : string) : Page :=
  if String.eqb html "search A" then
    {| location_name := "Clapham"; listing_urls := ["/p/1"; "/p/2"; "/p/1"];
       letting_information := ∅ |}
  else if String.eqb html "search B" then
    {| location_name := "Balham"; listing_urls := ["/p/2"; "/p/3"];
       letting_information := ∅ |}
  else if String.eqb html "listing 1" then
    {| location_name := ""; listing_urls := [];
       letting_information := {["date_available" := VStr "Now"]} |}
  else if String.eqb html "listing 2" then
    {| location_name := ""; listing_urls := [];
       letting_information :=
         <["furnishing" := VStr "Unfurnished"]>
           {["date_available" := VStr "16/08/2020"]} |}
  else
    {| location_name := ""; listing_urls := []; letting_information := ∅ |}.

Definition detail (p : Page) : pyval := VStr "".

Definition listing_page (url : string) : result Response :=
  if String.eqb url "/p/1" then Ok {| status_code := 200%Z; text := "listing 1" |}
  else if String.eqb url "/p/2" then Ok {| status_code := 200%Z; text := "listing 2" |}
  else if String.eqb url "/p/3" then Ok {| status_code := 200%Z; text := "listing 3" |}
  else Ok {| status_code := 404%Z; text := "" |}.

(** The site when every fetch completes. *)
Definition requests_get (url : string) : result Response :=
  if String.eqb url (search_url "REGION^93802")
  then Ok {| status_code := 200%Z; text := "search A" |}
  else if String.eqb url (search_url "REGION^87521")
  then Ok {| status_code := 200%Z; text := "search B" |}
  else listing_page url.

(** The site when the search of the second location does not complete. *)
Definition requests_get_down (url : string) : result Response :=
  if String.eqb url (search_url "REGION^93802")
  then Ok {| status_code := 200%Z; text := "search A" |}
  else if String.eqb url (search_url "REGION^87521")
  then Raise RequestException
  else listing_page url.

(** The site when the page of the second listing does not load. *)
Definition requests_get_listing_down (url : string) : result Response :=
  if String.eqb url "/p/2" then Raise RequestException else requests_get url.

(** A listing has a date available when the attribute is a text other
    than the empty one and ["Now"]. *)
Definition has_date_available (listing : Listing) : bool :=
  match vars listing !! "date_available" with
  | Some (VStr s) => negb (String.eqb s "") && negb (String.eqb s "Now")
  | _ => false
  end.

Definition listing (u date_available : string) : Listing :=
  {| url := u; details := {["date_available" := VStr date_available]} |}.

(** Listings as the filter and the sheet receive them. *)
Definition two_listings : list Listing :=
  [listing "/p/2" "16/08/2020"; listing "/p/3" "01/09/2020"].

Definition three_listings : list Listing :=
  [listing "/p/1" "Now"; listing "/p/4" "15/08/2020";
   listing "/p/2" "16/08/2020"].

Definition exists_in : list (list pyval) -> string -> bool :=
  does_cell_exist_with_value 0.

Abbreviation scrape_details_on site l :=
  (scrape_details site Page BeautifulSoup letting_information detail detail
     detail detail clock strftime l).

Abbreviation scrape_listings_loop_on site ids :=
  (scrape_listings_loop site Page BeautifulSoup location_name listing_urls
     letting_information detail detail detail detail clock strftime urlencode
     base_search_url ids []).

Abbreviation scrape_listings_on site ids :=
  (scrape_listings site Page BeautifulSoup location_name listing_urls
     letting_information detail detail detail detail clock strftime urlencode
     base_search_url remove_duplicate_listings ids).

(** [int] on a text of decimal digits, with an optional minus sign. *)
Fixpoint digits_value (s : string) (acc : Z) : option Z :=
  match s with
  | EmptyString => Some acc
  | String c rest =>
      if Datetime.is_digit c
      then digits_value rest (10 * acc + Datetime.digit c)%Z
      else None
  end.

Definition int (s : string) : result Z :=
  match s with
  | EmptyString => Raise ValueError
  | String c rest =>
      if Ascii.eqb c "-" then
        match rest, digits_value rest 0 with
        | String _ _, Some v => Ok (- v)%Z
        | _, _ => Raise ValueError
        end
      else match digits_value s 0 with
           | Some v => Ok v
           | None => Raise ValueError
           end
  end.

Definition filter_listings_on (cfg : ConfigParser) (listings : list Listing)
    : result (list Listing) * World :=
  filter_listings clock int has_date_available None listings (world cfg).

(** What a computation returned, [default] when it raised. *)
Definition returned {A} (default : A) (r : result A * World) : A :=
  match r.1 with Ok a => a | Raise _ => default end.

End Scenario.

(** * Properties *)

(** ** Running a computation *)

Lemma bind_Ok {A B} (m : M A) (f : A -> M B) w a w' :
  m w = (Ok a, w') -> (m ≫= f) w = f a w'.
Proof. intros H. unfold mbind, M_bind. by rewrite H. Qed.

Lemma bind_Raise {A B} (m : M A) (f : A -> M B) w e w' :
  m w = (Raise e, w') -> (m ≫= f) w = (Raise e, w').
Proof. intros H. unfold mbind, M_bind. by rewrite H. Qed.

Lemma bind_inv_Ok {A B} (m : M A) (f : A -> M B) w b w' :
  (m ≫= f) w = (Ok b, w') ->
  exists a w1, m w = (Ok a, w1) /\ f a w1 = (Ok b, w').
Proof.
  unfold mbind, M_bind. destruct (m w) as [[a|e] w1]; [eauto | discriminate].
Qed.

(** ** The worksheet *)

Section SheetFacts.
Variable propertyMappings : list (string * string).
Variable exists_in : list (list pyval) -> string -> bool.

Lemma build_row_loop_total attributes (d : gmap string pyval) :
  (forall a, a ∈ attributes -> is_Some (d !! a)) ->
  exists row, build_row_loop attributes d = Ok row
              /\ forall i a, attributes !! i = Some a -> row !! i = d !! a.
Proof.
  induction attributes as [|a rest IH]; intros Hall.
  - exists []. split; [done | intros i a Hi; by rewrite lookup_nil in Hi].
  - destruct (Hall a) as [v Hv]; [left |].
    destruct IH as (row & Hrow & Hcells).
    { intros b Hb. apply Hall. by right. }
    exists (v :: row). simpl. rewrite Hv, Hrow. split; [done |].
    intros [|i] b Hi; simpl in *; [by simplify_eq | by apply Hcells].
Qed.

Lemma add_listings_loop_sum listings : forall written duplicates w written' duplicates' w',
  add_listings_loop propertyMappings exists_in listings written duplicates w
    = (Ok (written', duplicates'), w') ->
  (written' + duplicates' = written + duplicates + length listings)%nat.
Proof.
  induction listings as [|listing rest IH]; intros wr du w wr' du' w' Hrun.
  - simpl in Hrun. injection Hrun as <- <- _. simpl. lia.
  - simpl in Hrun. unfold mbind, M_bind, gets in Hrun.
    destruct (exists_in (worksheet w) (url listing)); simpl in Hrun.
    + apply IH in Hrun. simpl. lia.
    + unfold lift, modify in Hrun.
      destruct (build_row propertyMappings listing); [| discriminate].
      apply IH in Hrun. simpl. lia.
Qed.

Lemma add_listings_loop_total listings : forall written duplicates w,
  (forall l a, l ∈ listings -> a ∈ propertyMappings.*2 -> is_Some (vars l !! a)) ->
  exists written' duplicates' w',
    add_listings_loop propertyMappings exists_in listings written duplicates w
      = (Ok (written', duplicates'), w').
Proof.
  induction listings as [|listing rest IH]; intros wr du w Hall.
  - by exists wr, du, w.
  - simpl. unfold mbind, M_bind, gets.
    destruct (exists_in (worksheet w) (url listing)); simpl.
    + apply IH. intros l a Hl. apply Hall. by right.
    + unfold lift, modify, build_row.
      destruct (build_row_loop_total (propertyMappings.*2) (vars listing))
        as (row & -> & _).
      { intros a. apply Hall. left. }
      apply IH. intros l a Hl. apply Hall. by right.
Qed.
End SheetFacts.

Lemma Forall_attributes (attributes : list string) (listings : list Listing) :
  Forall (fun l => Forall (fun a => is_Some (vars l !! a)) attributes) listings ->
  forall l a, l ∈ listings -> a ∈ attributes -> is_Some (vars l !! a).
Proof.
  intros Hall l a Hl Ha. rewrite Forall_forall in Hall.
  specialize (Hall l Hl). rewrite Forall_forall in Hall. by apply Hall.
Qed.

Section ExistsFacts.
Variable propertyMappings : list (string * string).
Variable url_column : nat.
Hypothesis url_column_ok : propertyMappings.*2 !! url_column = Some "url".

Let exists_in := does_cell_exist_with_value url_column.

Lemma exists_in_app ws1 ws2 v :
  exists_in (ws1 ++ ws2) v = exists_in ws1 v || exists_in ws2 v.
Proof. apply existsb_app. Qed.

Lemma exists_in_blank n v : exists_in (replicate n []) v = false.
Proof. induction n as [|n IH]; [done | exact IH]. Qed.

Lemma exists_in_insert_row row ws v :
  exists_in (insert_row row 2 ws) v
  = bool_decide (row !! url_column = Some (VStr v)) || exists_in ws v.
Proof.
  unfold insert_row.
  set (ws' := ws ++ replicate (2 - 1 - length ws) []).
  assert (Hws' : exists_in ws' v = exists_in ws v).
  { unfold ws'. rewrite exists_in_app, exists_in_blank. apply orb_false_r. }
  rewrite <- Hws'. rewrite <- (take_drop (2 - 1) ws') at 3.
  rewrite !exists_in_app.
  change (exists_in (row :: drop (2 - 1) ws') v)
    with (bool_decide (row !! url_column = Some (VStr v))
          || exists_in (drop (2 - 1) ws') v).
  destruct (exists_in (take (2 - 1) ws') v),
           (bool_decide (row !! url_column = Some (VStr v))); reflexivity.
Qed.

Lemma build_row_url listing row :
  build_row propertyMappings listing = Ok row ->
  row !! url_column = Some (VStr (url listing)).
Proof.
  unfold build_row. intros Hrow.
  assert (Hall : forall a, a ∈ propertyMappings.*2 -> is_Some (vars listing !! a)).
  { revert row Hrow. generalize (propertyMappings.*2).
    induction l as [|a rest IH]; intros row Hrow b Hb; [by inversion Hb |].
    simpl in Hrow. destruct (vars listing !! a) as [v|] eqn:Hv; [| discriminate].
    destruct (build_row_loop rest (vars listing)) as [cells|] eqn:Hcells;
      [| discriminate].
    inversion Hb; subst; [by rewrite Hv | by eapply IH]. }
  destruct (build_row_loop_total _ _ Hall) as (row' & Hrow' & Hcells).
  rewrite Hrow in Hrow'. injection Hrow' as <-.
  rewrite (Hcells _ _ url_column_ok). unfold vars. apply lookup_insert_eq.
Qed.

(** A first pass over listings that are new to the sheet writes each. *)
Lemma add_listings_loop_new listings : forall written duplicates w,
  (forall l a, l ∈ listings -> a ∈ propertyMappings.*2 -> is_Some (vars l !! a)) ->
  NoDup (url <$> listings) ->
  (forall l, l ∈ listings -> exists_in (worksheet w) (url l) = false) ->
  exists w',
    add_listings_loop propertyMappings exists_in listings written duplicates w
      = (Ok ((written + length listings)%nat, duplicates), w')
    /\ forall v, exists_in (worksheet w') v
                 = bool_decide (v ∈ url <$> listings) || exists_in (worksheet w) v.
Proof.
  induction listings as [|listing rest IH]; intros wr du w Hall Hnd Hnew.
  - exists w. split; [simpl; by rewrite Nat.add_0_r |].
    intros v. rewrite fmap_nil, bool_decide_eq_false_2; [done |].
    apply not_elem_of_nil.
  - rewrite fmap_cons in Hnd. apply NoDup_cons in Hnd as [Hnotin Hnd].
    simpl. unfold mbind, M_bind, gets.
    rewrite (Hnew listing) by left. simpl. unfold lift, modify.
    destruct (build_row_loop_total (propertyMappings.*2) (vars listing))
      as (row & Hrow & _).
    { intros a. apply Hall. left. }
    fold (build_row propertyMappings listing) in Hrow. rewrite Hrow.
    pose proof (build_row_url _ _ Hrow) as Hurl.
    set (w1 := set_worksheet (insert_row row 2 (worksheet w)) w).
    assert (Hex1 : forall v, exists_in (worksheet w1) v
               = bool_decide (v = url listing) || exists_in (worksheet w) v).
    { intros v. unfold w1. simpl. rewrite exists_in_insert_row, Hurl.
      f_equal. apply bool_decide_ext. split; [by intros [= ->] | by intros ->]. }
    destruct (IH (S wr) du w1) as (w' & Hrun & Hex'); [| done | |].
    { intros l a Hl. apply Hall. by right. }
    { intros l Hl. rewrite Hex1, (Hnew l) by (by right).
      rewrite bool_decide_eq_false_2; [done |].
      intros Heq. apply Hnotin. rewrite <- Heq. by apply list_elem_of_fmap_2. }
    exists w'. split.
    + rewrite Hrun. do 3 f_equal. lia.
    + intros v. rewrite Hex', Hex1, orb_assoc. f_equal.
      destruct (decide (v = url listing)) as [->|Hne].
      * rewrite (bool_decide_eq_true_2 (url listing = url listing)) by done.
        rewrite orb_true_r. symmetry. apply bool_decide_eq_true_2. left.
      * rewrite (bool_decide_eq_false_2 (v = url listing)) by done.
        rewrite orb_false_r. apply bool_decide_ext.
        rewrite elem_of_cons. tauto.
Qed.

(** A pass over listings that are all on the sheet writes nothing. *)
Lemma add_listings_loop_known listings : forall written duplicates w,
  (forall l, l ∈ listings -> exists_in (worksheet w) (url l) = true) ->
  add_listings_loop propertyMappings exists_in listings written duplicates w
    = (Ok (written, (duplicates + length listings)%nat), w).
Proof.
  induction listings as [|listing rest IH]; intros wr du w Hknown.
  - simpl. by rewrite Nat.add_0_r.
  - simpl. unfold mbind, M_bind, gets. rewrite (Hknown listing) by left.
    simpl. rewrite IH.
    + do 3 f_equal. lia.
    + intros l Hl. apply Hknown. by right.
Qed.
End ExistsFacts.

(** ** Removing the duplicates of a run *)

Section DedupFacts.
Implicit Types (seen : gset string) (listings : list Listing) (u : string).

Lemma remove_duplicates_from_urls seen listings u :
  u ∈ url <$> remove_duplicates_from seen listings ->
  (u ∉ seen) /\ u ∈ url <$> listings.
Proof.
  revert seen. induction listings as [|l rest IH]; intros seen; simpl.
  - by intros ?%elem_of_nil.
  - case_bool_decide as Hseen.
    + intros [? ?]%IH. split; [done | by right].
    + rewrite fmap_cons, elem_of_cons. intros [->|Hrest].
      * split; [done | left].
      * apply IH in Hrest as [Hu ?]. split; [| by right].
        intros Hin. apply Hu. by apply elem_of_union_r.
Qed.

Lemma remove_duplicates_from_NoDup seen listings :
  NoDup (url <$> remove_duplicates_from seen listings).
Proof.
  revert seen. induction listings as [|l rest IH]; intros seen; simpl.
  - constructor.
  - case_bool_decide as Hseen; [apply IH |].
    rewrite fmap_cons. apply NoDup_cons. split; [| apply IH].
    intros [Hu _]%remove_duplicates_from_urls.
    by apply Hu, elem_of_union_l, elem_of_singleton.
Qed.

Lemma remove_duplicates_from_sublist seen listings :
  sublist (remove_duplicates_from seen listings) listings.
Proof.
  revert seen. induction listings as [|l rest IH]; intros seen; simpl.
  - constructor.
  - case_bool_decide; [apply sublist_cons, IH | apply sublist_skip, IH].
Qed.

Lemma remove_duplicates_from_seen seen listings u :
  u ∈ seen ->
  filter (fun l => url l = u) (remove_duplicates_from seen listings) = [].
Proof.
  intros Hu. destruct (filter _ _) as [|l ls] eqn:Hf; [done |].
  assert (Hl : l ∈ filter (fun l => url l = u) (remove_duplicates_from seen listings))
    by (rewrite Hf; left).
  apply list_elem_of_filter in Hl as [<- Hl].
  apply (list_elem_of_fmap_2 url) in Hl.
  by apply remove_duplicates_from_urls in Hl as [? _].
Qed.

(** Of the listings that share a URL not seen before, the first one
    survives, and only that one. *)
Lemma remove_duplicates_from_first seen listings u :
  u ∉ seen -> u ∈ url <$> listings ->
  exists l, head (filter (fun l => url l = u) listings) = Some l
            /\ filter (fun l => url l = u) (remove_duplicates_from seen listings) = [l].
Proof.
  revert seen. induction listings as [|l rest IH]; intros seen Hu; simpl.
  - by intros ?%elem_of_nil.
  - rewrite elem_of_cons. intros Hin.
    destruct (decide (url l = u)) as [Heq|Hne].
    + exists l. rewrite filter_cons_True by done. split; [done |].
      rewrite bool_decide_eq_false_2 by (by rewrite Heq).
      rewrite filter_cons_True by done. f_equal.
      apply remove_duplicates_from_seen.
      by apply elem_of_union_l, elem_of_singleton.
    + destruct Hin as [->|Hin]; [done |].
      rewrite filter_cons_False by done.
      case_bool_decide as Hseen; [by apply IH |].
      rewrite filter_cons_False by done. apply IH; [| done].
      rewrite elem_of_union, elem_of_singleton. by intros [?|?].
Qed.
End DedupFacts.

(** ** Building the search request *)

Lemma alter_fresh {A} (f : A -> A) (l : list A) (x : A) :
  alter f (length l) (l ++ [x]) = l ++ [f x].
Proof. induction l as [|y l IH]; [done | simpl; by f_equal]. Qed.

Lemma config_items_run section (w : World) options :
  assoc section (config w) = Some options ->
  config_items section w = (Ok (length (heap w)), set_heap (heap w ++ [options]) w).
Proof. intros H. unfold config_items, mbind, M_bind, gets. by rewrite H. Qed.

Lemma build_search_url_run urlencode base_search_url identifier (w : World) options :
  assoc "filters" (config w) = Some options ->
  build_search_url urlencode base_search_url identifier w
  = (Ok (base_search_url
         +:+ urlencode (options ++ [("locationIdentifier", identifier)])),
     set_heap (heap w ++ [options ++ [("locationIdentifier", identifier)]]) w).
Proof.
  intros H. unfold build_search_url.
  erewrite bind_Ok by (by apply config_items_run).
  unfold list_append, list_read, modify, gets, mbind, M_bind, mret, M_ret.
  simpl. rewrite alter_fresh.
  rewrite lookup_app_r, Nat.sub_diag by lia. reflexivity.
Qed.

(** Whatever its outcome, a call leaves everything but the heap as it
    was, and every list object that existed before the call as it was. *)
Lemma build_search_url_frame urlencode base_search_url identifier (w : World) :
  let w' := (build_search_url urlencode base_search_url identifier w).2 in
  config w' = config w /\ worksheet w' = worksheet w /\ ticks w' = ticks w
  /\ stdout w' = stdout w /\ outbox w' = outbox w
  /\ forall r, (r < length (heap w))%nat -> heap w' !! r = heap w !! r.
Proof.
  destruct (assoc "filters" (config w)) as [options|] eqn:H.
  - rewrite (build_search_url_run _ _ _ _ _ H). simpl.
    repeat split. intros r Hr. by apply lookup_app_l.
  - unfold build_search_url, config_items, mbind, M_bind, gets. rewrite H.
    simpl. repeat split.
Qed.

(** ** The searches of a run *)

Section SearchFacts.
Variable requests_get : string -> result Response.
Variable DOM : Type.
Variable BeautifulSoup : string -> DOM.
Variable get_location_name : DOM -> string.
Variable get_listing_urls : DOM -> list string.
Variable get_letting_information : DOM -> gmap string pyval.
Variables get_description get_price get_address get_nearest_stations : DOM -> pyval.
Variable clock : nat -> datetime.
Variable strftime : date -> string -> string.
Variable urlencode : list (string * string) -> string.
Variable base_search_url : string.
Variable remove_duplicate_listings : list Listing -> list Listing.

Let scrape_details_of rg :=
  scrape_details rg DOM BeautifulSoup get_letting_information get_description
    get_price get_address get_nearest_stations clock strftime.
Let scrape_of rg :=
  scrape rg DOM BeautifulSoup get_location_name get_listing_urls
    get_letting_information get_description get_price get_address
    get_nearest_stations clock strftime.
Let loop_of rg :=
  scrape_listings_loop rg DOM BeautifulSoup get_location_name get_listing_urls
    get_letting_information get_description get_price get_address
    get_nearest_stations clock strftime urlencode base_search_url.
Let scrape_listings_of rg :=
  scrape_listings rg DOM BeautifulSoup get_location_name get_listing_urls
    get_letting_information get_description get_price get_address
    get_nearest_stations clock strftime urlencode base_search_url
    remove_duplicate_listings.


Lemma scrape_raises url (w : World) e :
  requests_get url = Raise e -> scrape_of requests_get url w = (Raise e, w).
Proof.
  intros Hget. unfold scrape_of, scrape, lift, mbind, M_bind. by rewrite Hget.
Qed.

Lemma scrape_listings_loop_app ids1 ids2 : forall listings (w : World),
  loop_of requests_get (ids1 ++ ids2) listings w
  = (loop_of requests_get ids1 listings ≫= loop_of requests_get ids2) w.
Proof.
  induction ids1 as [|id ids1 IH]; intros listings w; [done |].
  simpl. unfold mbind, M_bind.
  destruct (build_search_url _ _ _ _) as [[url|e] w1]; [| done].
  destruct (scrape _ _ _ _ _ _ _ _ _ _ _ _ _ _) as [[found|e] w2]; [| done].
  apply IH.
Qed.

(** The first search whose fetch raises ends the loop with that
    exception. *)
Lemma scrape_listings_loop_raises ids1 id ids2 (w w1 w2 : World) listings url e :
  loop_of requests_get ids1 [] w = (Ok listings, w1) ->
  build_search_url urlencode base_search_url id w1 = (Ok url, w2) ->
  requests_get url = Raise e ->
  loop_of requests_get (ids1 ++ id :: ids2) [] w = (Raise e, w2).
Proof.
  intros Hloop Hurl Hget. rewrite scrape_listings_loop_app.
  erewrite bind_Ok by exact Hloop. simpl.
  erewrite bind_Ok by exact Hurl.
  erewrite bind_Raise; [reflexivity | by apply scrape_raises].
Qed.

(** The status of a response is never read. *)
Lemma scrape_details_status status listing (w : World) :
  scrape_details_of (with_status status requests_get) listing w
  = scrape_details_of requests_get listing w.
Proof.
  unfold scrape_details_of, scrape_details, get_dom, with_status.
  unfold lift, mbind, M_bind. by destruct (requests_get (url listing)).
Qed.

Lemma scrape_details_all_status status listings : forall w : World,
  scrape_details_all (with_status status requests_get) DOM BeautifulSoup
    get_letting_information get_description get_price get_address
    get_nearest_stations clock strftime listings w
  = scrape_details_all requests_get DOM BeautifulSoup
      get_letting_information get_description get_price get_address
      get_nearest_stations clock strftime listings w.
Proof.
  induction listings as [|l rest IH]; intros w; [done |].
  simpl. unfold mbind, M_bind.
  pose proof (scrape_details_status status l w) as Hl.
  unfold scrape_details_of in Hl. rewrite Hl. clear Hl.
  destruct (scrape_details _ _ _ _ _ _ _ _ _ _ _ _) as [[l'|e] w1]; [| done].
  by rewrite IH.
Qed.

Lemma scrape_status status url (w : World) :
  scrape_of (with_status status requests_get) url w = scrape_of requests_get url w.
Proof.
  unfold scrape_of, scrape, lift, mbind, M_bind.
  unfold with_status at 1.
  destruct (requests_get url) as [response|e]; [| done]. simpl.
  apply scrape_details_all_status.
Qed.

Lemma scrape_listings_loop_status status ids : forall listings (w : World),
  loop_of (with_status status requests_get) ids listings w
  = loop_of requests_get ids listings w.
Proof.
  induction ids as [|id ids IH]; intros listings w; [done |].
  simpl. unfold mbind, M_bind.
  destruct (build_search_url _ _ _ _) as [[url|e] w1]; [| done].
  pose proof (scrape_status status url w1) as Hs.
  unfold scrape_of in Hs. rewrite Hs. clear Hs.
  destruct (scrape _ _ _ _ _ _ _ _ _ _ _ _ _ _) as [[found|e] w2]; [| done].
  apply IH.
Qed.

Lemma scrape_listings_status status ids (w : World) :
  scrape_listings_of (with_status status requests_get) ids w
  = scrape_listings_of requests_get ids w.
Proof.
  unfold scrape_listings_of, scrape_listings, mbind, M_bind.
  pose proof (scrape_listings_loop_status status ids [] w) as Hl.
  unfold loop_of in Hl. by rewrite Hl.
Qed.
End SearchFacts.

(** ** Dates *)

Example strptime_27_06_2020 : Datetime.strptime_dmY "27/06/2020" = Ok 737603%Z.
Proof. reflexivity. Qed.
Example strptime_1_1_0001 : Datetime.strptime_dmY "1/1/0001" = Ok 1%Z.
Proof. reflexivity. Qed.
Example strptime_31_12_9999 :
  Datetime.strptime_dmY "31/12/9999" = Ok Datetime.max_ordinal.
Proof. reflexivity. Qed.
Example strptime_29_02_2021 : Datetime.strptime_dmY "29/02/2021" = Raise ValueError.
Proof. reflexivity. Qed.
Example strptime_Now : Datetime.strptime_dmY "Now" = Raise ValueError.
Proof. reflexivity. Qed.

Section DatetimeFacts.
Import Datetime.
Local Open Scope Z_scope.

Lemma chr_digit k :
  0 <= k <= 9 ->
  is_digit (chr k) = true /\ digit (chr k) = k /\ Ascii.eqb (chr k) "/" = false.
Proof.
  intros Hk.
  assert (Hall : Forall (fun k => is_digit (chr k) = true /\ digit (chr k) = k
                                  /\ Ascii.eqb (chr k) "/" = false) (seqZ 0 10)).
  { repeat constructor. }
  rewrite Forall_forall in Hall. apply Hall, elem_of_seqZ. lia.
Qed.

Lemma split_slash_no_slash s : no_slash s = true -> split_slash s = [s].
Proof.
  induction s as [|c s IH]; [done |]. simpl.
  destruct (Ascii.eqb c "/"); [done |]. simpl. intros Hs. by rewrite IH.
Qed.

Lemma split_slash_app s1 s2 :
  no_slash s1 = true ->
  split_slash (s1 +:+ "/" +:+ s2) = s1 :: split_slash s2.
Proof.
  induction s1 as [|c s1 IH]; [done |]. simpl.
  destruct (Ascii.eqb c "/"); [done |]. simpl. intros Hs. by rewrite IH.
Qed.

Local Ltac div_lia := Z.div_mod_to_equations; lia.

Lemma no_slash_two_digits n : 0 <= n <= 99 -> no_slash (two_digits n) = true.
Proof.
  intros Hn. unfold two_digits. cbn [no_slash].
  destruct (chr_digit (n / 10)) as (_ & _ & ->); [div_lia |].
  destruct (chr_digit (n mod 10)) as (_ & _ & ->); [div_lia | done].
Qed.

Lemma no_slash_four_digits n : 0 <= n <= 9999 -> no_slash (four_digits n) = true.
Proof.
  intros Hn. unfold four_digits. cbn [no_slash].
  destruct (chr_digit (n / 1000)) as (_ & _ & ->); [div_lia |].
  destruct (chr_digit (n / 100 mod 10)) as (_ & _ & ->); [div_lia |].
  destruct (chr_digit (n / 10 mod 10)) as (_ & _ & ->); [div_lia |].
  destruct (chr_digit (n mod 10)) as (_ & _ & ->); [div_lia | done].
Qed.

Lemma split_slash_format d m y :
  0 <= d <= 99 -> 0 <= m <= 99 -> 0 <= y <= 9999 ->
  split_slash (format_dmY d m y) = [two_digits d; two_digits m; four_digits y].
Proof.
  intros Hd Hm Hy. unfold format_dmY.
  rewrite (split_slash_app (two_digits d)
             (two_digits m +:+ "/" +:+ four_digits y))
    by (by apply no_slash_two_digits).
  rewrite (split_slash_app (two_digits m) (four_digits y))
    by (by apply no_slash_two_digits).
  by rewrite (split_slash_no_slash (four_digits y))
    by (by apply no_slash_four_digits).
Qed.

Lemma directive_d_two_digits d :
  1 <= d <= 31 -> directive_d (two_digits d) = Some d.
Proof.
  intros Hd.
  assert (Hall : Forall (fun d => directive_d (two_digits d) = Some d) (seqZ 1 31)).
  { apply (bool_decide_unpack _). by vm_compute. }
  rewrite Forall_forall in Hall. apply Hall, elem_of_seqZ. lia.
Qed.

Lemma directive_m_two_digits m :
  1 <= m <= 12 -> directive_m (two_digits m) = Some m.
Proof.
  intros Hm.
  assert (Hall : Forall (fun m => directive_m (two_digits m) = Some m) (seqZ 1 12)).
  { apply (bool_decide_unpack _). by vm_compute. }
  rewrite Forall_forall in Hall. apply Hall, elem_of_seqZ. lia.
Qed.

Lemma directive_Y_four_digits y :
  0 <= y <= 9999 -> directive_Y (four_digits y) = Some y.
Proof.
  intros Hy. unfold four_digits, directive_Y.
  destruct (chr_digit (y / 1000)) as (-> & -> & _); [div_lia |].
  destruct (chr_digit (y / 100 mod 10)) as (-> & -> & _); [div_lia |].
  destruct (chr_digit (y / 10 mod 10)) as (-> & -> & _); [div_lia |].
  destruct (chr_digit (y mod 10)) as (-> & -> & _); [div_lia |].
  cbn [andb]. f_equal. div_lia.
Qed.

(** The text of a date in day/month/year order is read back as that
    date. *)
Lemma strptime_format d m y :
  1 <= d <= 31 -> 1 <= m <= 12 -> 0 <= y <= 9999 ->
  strptime_dmY (format_dmY d m y) = ymd2ord y m d.
Proof.
  intros Hd Hm Hy. unfold strptime_dmY.
  rewrite split_slash_format by lia.
  by rewrite directive_d_two_digits, directive_m_two_digits,
    directive_Y_four_digits.
Qed.

End DatetimeFacts.



(** *** The texts [strptime] accepts *)

Section DateTextFacts.
Import Datetime.
Local Open Scope Z_scope.

Local Ltac div_lia := Z.div_mod_to_equations; lia.















Example date_text_27_06_2020 : date_text "27/06/2020" 737603.
Proof.
  exists "27", "06", "2020", 27, 6, 2020. split; [reflexivity |].
  split; [split; [lia | by left] |].
  split; [split; [lia | by left] |].
  split; [split; [lia | reflexivity] | reflexivity].
Qed.

Example date_text_space_1_1_0001 : date_text " 1/1/0001" 1.
Proof.
  exists " 1", "1", "0001", 1, 1, 1. split; [reflexivity |].
  split; [split; [lia | right; split; [lia | by right]] |].
  split; [split; [lia | right; split; [lia | reflexivity]] |].
  split; [split; [lia | reflexivity] | reflexivity].
Qed.


End DateTextFacts.

(** ** Filtering on the date available *)

Section FilterFacts.
Variable clock : nat -> datetime.
Variable int : string -> result Z.
Variable has_date_available : Listing -> bool.
Variable convert_daye : option (pyval -> result date).

Let cond := available_after_cutoff has_date_available convert_daye.

(** What a comprehension that returns has kept. *)
Lemma comprehension_Ok (c : Listing -> result bool) listings : forall kept,
  comprehension c listings = Ok kept ->
  sublist kept listings
  /\ Forall (fun l => c l = Ok true \/ c l = Ok false) listings
  /\ kept = filter (fun l => c l = Ok true) listings.
Proof.
  induction listings as [|l rest IH]; intros kept; simpl.
  - intros [= <-]. repeat split; constructor.
  - unfold mbind, result_bind, mret, result_ret.
    destruct (c l) as [keep|] eqn:Hl; [| done].
    destruct (comprehension c rest) as [kept'|]; [| done].
    intros [= <-]. destruct (IH kept' eq_refl) as (Hsub & Hall & ->).
    split; [| split].
    + destruct keep; [by apply sublist_skip | by apply sublist_cons].
    + constructor; [destruct keep; auto | done].
    + destruct keep.
      * by rewrite (filter_cons_True (fun l => c l = Ok true)).
      * rewrite (filter_cons_False (fun l => c l = Ok true)); [done |].
        by rewrite Hl.
Qed.

(** A comprehension raises what its condition raises first. *)
Lemma comprehension_Raise (c : Listing -> result bool) before l after e :
  Forall (fun l => is_Ok (c l) = true) before ->
  c l = Raise e ->
  comprehension c (before ++ l :: after) = Raise e.
Proof.
  intros Hbefore Hl. induction Hbefore as [|l0 before Hl0 _ IH]; simpl.
  - by rewrite Hl.
  - destruct (c l0); [| done]. simpl. by rewrite IH.
Qed.

Lemma get_listings_run n_weeks listings (w : World) :
  listings <> [] ->
  get_listings_available_after_n_weeks clock has_date_available convert_daye
    n_weeks listings w
  = (delta ← Datetime.timedelta_weeks n_weeks;
     available_after ← Datetime.date_add (date_part (clock (ticks w))) delta;
     comprehension (cond available_after) listings,
     set_ticks (S (ticks w))
       (set_stdout
          (stdout w ++ ["Filtering listings down only those available after "
                        +:+ pretty n_weeks +:+ " weeks from now"]) w)).
Proof.
  intros Hne. unfold get_listings_available_after_n_weeks.
  destruct listings as [|l rest]; [done |]. cbn [length Nat.eqb].
  unfold print, modify, datetime_now, lift, mbind, M_bind, result_bind. cbn.
  destruct (Datetime.timedelta_weeks n_weeks) as [delta|]; [| done].
  by destruct (Datetime.date_add _ delta).
Qed.

Lemma get_listings_empty n_weeks (w : World) :
  get_listings_available_after_n_weeks clock has_date_available convert_daye
    n_weeks [] w = (Ok [], w).
Proof. reflexivity. Qed.

Lemma filter_listings_no_option listings (w : World) options :
  assoc "filters" (config w) = Some options ->
  assoc (optionxform "availableAfterNWeeks") options = None ->
  filter_listings clock int has_date_available convert_daye listings w
  = (Raise (NoOptionError "availableafternweeks" "filters"), w).
Proof.
  intros Hs Ho. unfold filter_listings, config_get, gets, mbind, M_bind.
  by rewrite Hs, Ho.
Qed.
End FilterFacts.

Lemma available_after_cutoff_true has_date_available convert_daye cutoff l :
  available_after_cutoff has_date_available convert_daye cutoff l = Ok true <->
  has_date_available l = true
  /\ exists f x d, convert_daye = Some f /\ getattr l "date_available" = Ok x
                   /\ f x = Ok d /\ (cutoff < d)%Z.
Proof.
  unfold available_after_cutoff, mbind, result_bind, mret, result_ret. split.
  - destruct (has_date_available l); [| discriminate].
    destruct convert_daye as [f|]; [| discriminate].
    destruct (getattr l "date_available") as [x|]; [| discriminate].
    destruct (f x) as [d|] eqn:Hf; [| discriminate].
    intros [= Hlt%Z.ltb_lt]. split; [done |]. by exists f, x, d.
  - intros (-> & f & x & d & -> & -> & Hf & Hlt). rewrite Hf.
    f_equal. by apply Z.ltb_lt.
Qed.

(** Once the name is bound, the comparison with the cutoff is strict, and
    a listing without a date available is left out whatever the binding. *)
Lemma available_after_cutoff_boundary has_date_available f cutoff l x :
  getattr l "date_available" = Ok x ->
  has_date_available l = true ->
  (f x = Ok cutoff ->
   available_after_cutoff has_date_available (Some f) cutoff l = Ok false)
  /\ (f x = Ok (cutoff + 1)%Z ->
      available_after_cutoff has_date_available (Some f) cutoff l = Ok true).
Proof.
  intros Hx Hl. unfold available_after_cutoff. rewrite Hl, Hx. simpl.
  split; intros ->; simpl; unfold mret, result_ret; f_equal; lia.
Qed.

Lemma available_after_cutoff_undated has_date_available convert_daye cutoff l :
  has_date_available l = false ->
  available_after_cutoff has_date_available convert_daye cutoff l = Ok false.
Proof. intros Hl. unfold available_after_cutoff. by rewrite Hl. Qed.

(** ** Persisting and notifying *)

Section ProcessFacts.
Variable propertyMappings : list (string * string).
Variable exists_in : list (list pyval) -> string -> bool.
Variable sheet_name : string.
Variable smtp : gmap string string -> string -> result unit.

(** [add_listings] acts on the worksheet and the standard output only. *)
Lemma add_listings_loop_frame listings : forall written duplicates (w : World),
  let w' := (add_listings_loop propertyMappings exists_in listings
               written duplicates w).2 in
  config w' = config w /\ heap w' = heap w /\ outbox w' = outbox w
  /\ ticks w' = ticks w.
Proof.
  induction listings as [|l rest IH]; intros wr du w; [done |].
  simpl. unfold mbind, M_bind, gets.
  destruct (exists_in (worksheet w) (url l)); simpl; [apply IH |].
  unfold lift, modify. destruct (build_row propertyMappings l); [| done].
  destruct (IH (S wr) du (set_worksheet (insert_row a 2 (worksheet w)) w))
    as (? & ? & ? & ?).
  done.
Qed.

Lemma add_listings_frame listings (w : World) :
  let w' := (add_listings propertyMappings exists_in listings w).2 in
  config w' = config w /\ heap w' = heap w /\ outbox w' = outbox w
  /\ ticks w' = ticks w.
Proof.
  unfold add_listings, mbind, M_bind. simpl.
  apply (add_listings_loop_frame listings 0%nat 0%nat
           (set_stdout (stdout w ++ ["Writing listings to sheet..."]) w)).
Qed.

Lemma append_assoc (a b c : string) : (a +:+ b) +:+ c = a +:+ b +:+ c.
Proof.
  induction a as [|x a IH]; [done |].
  change (String x ((a +:+ b) +:+ c) = String x (a +:+ b +:+ c)).
  by rewrite IH.
Qed.

Lemma summary_contains eligible written duplicates :
  let message := summary sheet_name eligible written duplicates in
  contains (pretty eligible) message /\ contains (pretty written) message
  /\ contains (pretty duplicates) message.
Proof.
  unfold summary, contains. split; [| split].
  - exists nl. eexists. reflexivity.
  - exists (nl +:+ pretty eligible +:+ " eligible properties were found." +:+ nl).
    eexists. rewrite !append_assoc. reflexivity.
  - exists (nl +:+ pretty eligible +:+ " eligible properties were found." +:+ nl
            +:+ pretty written
            +:+ " new properties were added to the worksheet "
            +:+ sheet_name +:+ "." +:+ nl).
    eexists. rewrite !append_assoc. reflexivity.
Qed.

(** The outbox after [process_listings], from what [add_listings]
    returned. *)
Lemma process_listings_outbox listings (w w1 : World) written duplicates :
  add_listings propertyMappings exists_in listings w
    = (Ok (written, duplicates), w1) ->
  outbox (process_listings propertyMappings exists_in sheet_name smtp
            listings w).2
  = match assoc "mailer" (config w), written with
    | Some options, S _ =>
        outbox w ++ [(dict options,
                      summary sheet_name (length listings) written duplicates)]
    | _, _ => outbox w
    end.
Proof.
  intros Hadd. pose proof (add_listings_frame listings w) as Hframe.
  rewrite Hadd in Hframe. simpl in Hframe. destruct Hframe as (Hc & Hh & Ho & _).
  unfold process_listings. erewrite bind_Ok by exact Hadd.
  unfold print, config_has_section, config_items, new_list, list_read, send_mail.
  unfold modify, gets, lift, mbind, M_bind. simpl. rewrite Hc.
  destruct (assoc "mailer" (config w)) as [options|] eqn:Hm; simpl.
  - destruct written as [|n]; simpl; [done |].
    rewrite Hc, Hm. simpl.
    rewrite lookup_app_r, Nat.sub_diag by lia. simpl. by rewrite Ho.
  - done.
Qed.
End ProcessFacts.

(** * The claims *)

(** ** Writing the same listings twice *)

(** C1: a sequence of N listings with pairwise distinct URLs, none of them
    on the sheet, is written entirely by a first call of [add_listings]
    (written = N, duplicates = 0) and recognised entirely by a second call
    with the same sequence (written = 0, duplicates = N), which leaves the
    worksheet as the first call left it. *)
Theorem add_listings_twice :
  forall propertyMappings url_column (listings : list Listing) (w : World),
    propertyMappings.*2 !! url_column = Some "url" ->
    (forall l a, l ∈ listings -> a ∈ propertyMappings.*2 -> is_Some (vars l !! a)) ->
    NoDup (url <$> listings) ->
    (forall l, l ∈ listings ->
       does_cell_exist_with_value url_column (worksheet w) (url l) = false) ->
    exists w1 w2,
      add_listings propertyMappings (does_cell_exist_with_value url_column)
        listings w = (Ok (length listings, 0%nat), w1)
      /\ add_listings propertyMappings (does_cell_exist_with_value url_column)
           listings w1 = (Ok (0%nat, length listings), w2)
      /\ worksheet w2 = worksheet w1.
Proof.
  intros pm col listings w Hcol Hall Hnd Hnew. unfold add_listings.
  set (p := print "Writing listings to sheet...").
  destruct (add_listings_loop_new pm col Hcol listings 0%nat 0%nat
              (set_stdout (stdout w ++ ["Writing listings to sheet..."]) w)
              Hall Hnd Hnew) as (w1 & Hrun1 & Hex1).
  exists w1. eexists. split; [| split].
  - erewrite bind_Ok; [exact Hrun1 | reflexivity].
  - erewrite bind_Ok; [| reflexivity].
    apply (add_listings_loop_known pm col).
    intros l Hl. simpl. rewrite Hex1.
    rewrite bool_decide_eq_true_2; [done | by apply list_elem_of_fmap_2].
  - reflexivity.
Qed.

Lemma add_listings_twice_witness :
  Scenario.propertyMappings.*2 !! 0%nat = Some "url"
  /\ NoDup (url <$> Scenario.two_listings)
  /\ exists w1 w2,
       add_listings Scenario.propertyMappings Scenario.exists_in
         Scenario.two_listings (Scenario.world Scenario.config_ini)
       = (Ok (2%nat, 0%nat), w1)
       /\ add_listings Scenario.propertyMappings Scenario.exists_in
            Scenario.two_listings w1 = (Ok (0%nat, 2%nat), w2)
       /\ worksheet w2 = worksheet w1.
Proof.
  assert (Hnd : NoDup (url <$> Scenario.two_listings)).
  { apply (bool_decide_unpack _). vm_compute. exact I. }
  split; [reflexivity |]. split; [exact Hnd |].
  apply (add_listings_twice Scenario.propertyMappings 0 Scenario.two_listings
           (Scenario.world Scenario.config_ini)).
  - reflexivity.
  - apply Forall_attributes. apply (bool_decide_unpack _). vm_compute. exact I.
  - exact Hnd.
  - apply Forall_forall. apply (bool_decide_unpack _). vm_compute. exact I.
Defined.

(** ** The availability of a listing *)




(** ** The lead-time boundary *)

(** C3, on the module as published: a batch that holds a listing with a
    date available is not filtered at all, the call of the unbound name
    [convert_daye] raises [NameError] at the first such listing. *)
Theorem dated_listing_raises_NameError :
  forall clock has_date_available (n_weeks : Z) (before : list Listing)
         (l : Listing) (after : list Listing) (w : World) delta cutoff,
    Forall (fun l => has_date_available l = false) before ->
    has_date_available l = true ->
    Datetime.timedelta_weeks n_weeks = Ok delta ->
    Datetime.date_add (date_part (clock (ticks w))) delta = Ok cutoff ->
    (get_listings_available_after_n_weeks clock has_date_available None
       n_weeks (before ++ l :: after) w).1
    = Raise (NameError "convert_daye").
Proof.
  intros clock has n before l after w delta cutoff Hbefore Hl Hdelta Hcutoff.
  rewrite get_listings_run by (by destruct before).
  rewrite Hdelta. simpl. rewrite Hcutoff. simpl.
  apply comprehension_Raise.
  - eapply Forall_impl; [exact Hbefore |].
    intros l0 Hl0. unfold available_after_cutoff. by rewrite Hl0.
  - unfold available_after_cutoff. by rewrite Hl.
Qed.

Lemma dated_listing_raises_NameError_witness :
  Scenario.has_date_available (Scenario.listing "/p/1" "Now") = false
  /\ Scenario.has_date_available (Scenario.listing "/p/2" "16/08/2020") = true
  /\ convert_date (VStr "16/08/2020") = Ok (737603 + 7 * 7 + 1)%Z
  /\ (get_listings_available_after_n_weeks Scenario.clock
        Scenario.has_date_available None 7
        ([Scenario.listing "/p/1" "Now"]
         ++ Scenario.listing "/p/2" "16/08/2020" :: [])
        (Scenario.world Scenario.config_ini)).1
     = Raise (NameError "convert_daye").
Proof.
  split; [reflexivity |]. split; [reflexivity |]. split; [reflexivity |].
  apply (dated_listing_raises_NameError Scenario.clock
           Scenario.has_date_available 7 [Scenario.listing "/p/1" "Now"]
           (Scenario.listing "/p/2" "16/08/2020") []
           (Scenario.world Scenario.config_ini) 49%Z 737652%Z).
  - repeat constructor.
  - reflexivity.
  - reflexivity.
  - reflexivity.
Defined.

(** [filter_listings] under config.ini, whose lead time is 7 weeks, on
    the module as published. *)
Example filter_listings_as_published :
  (Scenario.filter_listings_on Scenario.config_ini Scenario.three_listings).1
  = Raise (NameError "convert_daye").
Proof. vm_compute. reflexivity. Qed.

(** With [convert_daye] bound to [convert_date], seven weeks of lead time
    and the clock at 27 June 2020: the listing dated 15 August 2020, seven
    weeks on, is left out, the one dated a day later is kept. *)
Example boundary_with_convert_date_bound :
  convert_date (VStr "15/08/2020") = Ok (737603 + 7 * 7)%Z
  /\ url <$> Scenario.returned []
       (get_listings_available_after_n_weeks Scenario.clock
          Scenario.has_date_available (Some convert_date) 7
          Scenario.three_listings (Scenario.world Scenario.config_ini))
     = ["/p/2"].
Proof. vm_compute. split; reflexivity. Qed.

(** ** A search that does not complete *)

(** C4, as the code has it: when the fetch of the search page of a
    location raises, the exception leaves [scrape_listings] and the run
    ends there, the listings of the locations before it included; and the
    status of a response is never read, so a page with a non-success status
    is parsed like any other. *)
Theorem fetch_failure_ends_the_run :
  forall requests_get DOM BeautifulSoup get_location_name get_listing_urls
         get_letting_information get_description get_price get_address
         get_nearest_stations clock strftime urlencode base_search_url
         remove_duplicate_listings
         (ids1 : list string) (id : string) (ids2 : list string)
         (w w1 w2 : World) (gathered : list Listing) (url : string) (e : exn),
    scrape_listings_loop requests_get DOM BeautifulSoup get_location_name
      get_listing_urls get_letting_information get_description get_price
      get_address get_nearest_stations clock strftime urlencode
      base_search_url ids1 [] w = (Ok gathered, w1) ->
    build_search_url urlencode base_search_url id w1 = (Ok url, w2) ->
    requests_get url = Raise e ->
    scrape_listings requests_get DOM BeautifulSoup get_location_name
      get_listing_urls get_letting_information get_description get_price
      get_address get_nearest_stations clock strftime urlencode
      base_search_url remove_duplicate_listings (ids1 ++ id :: ids2) w
    = (Raise e, w2)
    /\ forall status ids w0,
         scrape_listings (with_status status requests_get) DOM BeautifulSoup
           get_location_name get_listing_urls get_letting_information
           get_description get_price get_address get_nearest_stations clock
           strftime urlencode base_search_url remove_duplicate_listings ids w0
         = scrape_listings requests_get DOM BeautifulSoup
             get_location_name get_listing_urls get_letting_information
             get_description get_price get_address get_nearest_stations clock
             strftime urlencode base_search_url remove_duplicate_listings
             ids w0.
Proof.
  intros rg DOM BS gln glu gli gd gp ga gns clock strftime ue base rdl
    ids1 id ids2 w w1 w2 gathered url e Hloop Hurl Hget.
  split.
  - unfold scrape_listings. erewrite bind_Raise; [reflexivity |].
    by eapply scrape_listings_loop_raises.
  - intros status ids w0. apply scrape_listings_status.
Qed.

Lemma fetch_failure_ends_the_run_witness :
  Scenario.requests_get_down (Scenario.search_url "REGION^87521")
  = Raise RequestException
  /\ url <$> Scenario.returned []
       (Scenario.scrape_listings_loop_on Scenario.requests_get_down
          ["REGION^93802"] (Scenario.world Scenario.config_ini))
     = ["/p/1"; "/p/2"; "/p/1"]
  /\ (Scenario.scrape_listings_on Scenario.requests_get_down
        (["REGION^93802"] ++ "REGION^87521" :: ["REGION^93802"])
        (Scenario.world Scenario.config_ini)).1
     = Raise RequestException.
Proof.
  split; [reflexivity |]. split; [vm_compute; reflexivity |].
  assert (Hloop : Scenario.scrape_listings_loop_on Scenario.requests_get_down
            ["REGION^93802"] (Scenario.world Scenario.config_ini)
          = (Ok (Scenario.returned []
                   (Scenario.scrape_listings_loop_on Scenario.requests_get_down
                      ["REGION^93802"] (Scenario.world Scenario.config_ini))),
             (Scenario.scrape_listings_loop_on Scenario.requests_get_down
                ["REGION^93802"] (Scenario.world Scenario.config_ini)).2)).
  { vm_compute. reflexivity. }
  pose proof (build_search_url_run Scenario.urlencode Scenario.base_search_url
                "REGION^87521"
                (Scenario.scrape_listings_loop_on Scenario.requests_get_down
                   ["REGION^93802"] (Scenario.world Scenario.config_ini)).2
                Scenario.filters eq_refl) as Hurl.
  pose proof (proj1
    (fetch_failure_ends_the_run Scenario.requests_get_down Scenario.Page
       Scenario.BeautifulSoup Scenario.location_name Scenario.listing_urls
       Scenario.letting_information Scenario.detail Scenario.detail
       Scenario.detail Scenario.detail Scenario.clock Scenario.strftime
       Scenario.urlencode Scenario.base_search_url remove_duplicate_listings
       ["REGION^93802"] "REGION^87521" ["REGION^93802"]
       (Scenario.world Scenario.config_ini) _ _ _ _ RequestException
       Hloop Hurl eq_refl)) as Hraise.
  by rewrite Hraise.
Defined.

(** C4, as the claim states it, fails: the search of the first location
    returns its listings, the fetch for the second location does not
    complete, and the run returns no listing at all; nor is the location
    after the failing one searched. *)
Lemma fetch_failure_is_not_isolated :
  url <$> Scenario.returned []
    (Scenario.scrape_listings_on Scenario.requests_get_down
       ["REGION^93802"] (Scenario.world Scenario.config_ini))
  = ["/p/1"; "/p/2"]
  /\ (Scenario.scrape_listings_on Scenario.requests_get_down
        ["REGION^93802"; "REGION^87521"]
        (Scenario.world Scenario.config_ini)).1
     = Raise RequestException
  /\ (Scenario.scrape_listings_on Scenario.requests_get_down
        ["REGION^87521"; "REGION^93802"]
        (Scenario.world Scenario.config_ini)).1
     = Raise RequestException
  /\ stdout (Scenario.scrape_listings_on Scenario.requests_get_down
               ["REGION^87521"; "REGION^93802"]
               (Scenario.world Scenario.config_ini)).2
     = [].
Proof. vm_compute. repeat split. Qed.

(** ** No lead time *)

(** C5, as the code has it: when the [filters] section gives the lead-time
    option an empty value, [filter_listings] returns the listings it was
    given, unchanged and in their order, and leaves the world as it was. *)
Theorem filter_listings_without_lead_time :
  forall clock int has_date_available convert_daye (listings : list Listing)
         (w : World) options,
    assoc "filters" (config w) = Some options ->
    assoc (optionxform "availableAfterNWeeks") options = Some "" ->
    filter_listings clock int has_date_available convert_daye listings w
    = (Ok listings, w).
Proof.
  intros clock int has cd listings w options Hsection Hoption.
  unfold filter_listings, config_get, gets, mbind, M_bind.
  rewrite Hsection, Hoption. reflexivity.
Qed.

Lemma filter_listings_without_lead_time_witness :
  assoc "filters" (config (Scenario.world Scenario.config_empty_lead_time))
  = Some [("availableafternweeks", ""); ("radius", "1")]
  /\ filter_listings Scenario.clock Scenario.int Scenario.has_date_available
       None Scenario.three_listings
       (Scenario.world Scenario.config_empty_lead_time)
     = (Ok Scenario.three_listings,
        Scenario.world Scenario.config_empty_lead_time).
Proof.
  split; [reflexivity |].
  apply (filter_listings_without_lead_time Scenario.clock Scenario.int
           Scenario.has_date_available None Scenario.three_listings
           (Scenario.world Scenario.config_empty_lead_time)
           [("availableafternweeks", ""); ("radius", "1")]).
  - reflexivity.
  - reflexivity.
Defined.

(** C5, as the claim states it, fails: with no lead-time option in the
    [filters] section, [filter_listings] raises [NoOptionError] and returns
    no listings. *)
Lemma filter_listings_raises_without_option :
  assoc "filters" Scenario.config_no_lead_time = Some [("radius", "1")]
  /\ Scenario.filter_listings_on Scenario.config_no_lead_time
       Scenario.three_listings
     = (Raise (NoOptionError "availableafternweeks" "filters"),
        Scenario.world Scenario.config_no_lead_time).
Proof. split; reflexivity. Qed.

(** ** One cutoff for the batch *)

(** C6, as the code has it: a call on a batch that is not empty reads the
    clock exactly once, before the comprehension; the cutoff is the date of
    that reading plus the lead time, every listing that is kept has been
    compared against it, and the time of day of the reading plays no
    part. *)
Theorem cutoff_computed_once :
  forall clock has_date_available convert_daye (n_weeks : Z)
         (listings : list Listing) (w : World),
    listings <> [] ->
    let run := get_listings_available_after_n_weeks clock has_date_available
                 convert_daye n_weeks listings w in
    let cutoff := (date_part (clock (ticks w)) + 7 * n_weeks)%Z in
    ticks run.2 = S (ticks w)
    /\ (forall kept, run.1 = Ok kept ->
          sublist kept listings
          /\ forall l, l ∈ kept <->
               l ∈ listings
               /\ available_after_cutoff has_date_available convert_daye
                    cutoff l = Ok true)
    /\ (forall clock',
          date_part (clock' (ticks w)) = date_part (clock (ticks w)) ->
          (get_listings_available_after_n_weeks clock' has_date_available
             convert_daye n_weeks listings w).1 = run.1).
Proof.
  intros clock has cd n listings w Hne run cutoff. subst run.
  rewrite get_listings_run by done. simpl. split; [done |]. split.
  - intros kept. unfold Datetime.timedelta_weeks, Datetime.date_add.
    case_match; [| discriminate]. simpl.
    case_match; [| discriminate]. simpl.
    intros (Hsub & _ & ->)%comprehension_Ok. split; [done |].
    intros l. rewrite list_elem_of_filter. fold cutoff. tauto.
  - intros clock' Hdate. rewrite get_listings_run by done. simpl.
    by rewrite Hdate.
Qed.

Lemma cutoff_computed_once_witness :
  Scenario.three_listings <> []
  /\ ticks (get_listings_available_after_n_weeks Scenario.clock
              Scenario.has_date_available (Some convert_date) 7
              Scenario.three_listings
              (Scenario.world Scenario.config_ini)).2
     = 1%nat
  /\ (get_listings_available_after_n_weeks Scenario.clock
        Scenario.has_date_available (Some convert_date) 7
        Scenario.three_listings (Scenario.world Scenario.config_ini)).1
     = Ok [Scenario.listing "/p/2" "16/08/2020"].
Proof.
  split; [discriminate |]. split; [| vm_compute; reflexivity].
  exact (proj1
    (cutoff_computed_once Scenario.clock Scenario.has_date_available
       (Some convert_date) 7 Scenario.three_listings
       (Scenario.world Scenario.config_ini) ltac:(discriminate))).
Defined.

(** C6, as the claim states it, fails on the empty batch: the call returns
    before the clock is read. *)
Lemma empty_batch_reads_no_clock :
  get_listings_available_after_n_weeks Scenario.clock
    Scenario.has_date_available (Some convert_date) 7 []
    (Scenario.world Scenario.config_ini)
  = (Ok [], Scenario.world Scenario.config_ini)
  /\ ticks (get_listings_available_after_n_weeks Scenario.clock
              Scenario.has_date_available (Some convert_date) 7 []
              (Scenario.world Scenario.config_ini)).2
     = 0%nat.
Proof. split; reflexivity. Qed.

(** ** Duplicates within a run *)

(** C7: once the searches of all the locations have returned their
    listings, [scrape_listings] returns them without duplicates: no two
    listings of the result share a URL, the result keeps the order of the
    gathered sequence, and of the listings that share a URL exactly one
    survives, the first. *)
Theorem scrape_listings_removes_duplicates :
  forall requests_get DOM BeautifulSoup get_location_name get_listing_urls
         get_letting_information get_description get_price get_address
         get_nearest_stations clock strftime urlencode base_search_url
         (ids : list string) (w w' : World) (gathered : list Listing),
    scrape_listings_loop requests_get DOM BeautifulSoup get_location_name
      get_listing_urls get_letting_information get_description get_price
      get_address get_nearest_stations clock strftime urlencode
      base_search_url ids [] w = (Ok gathered, w') ->
    scrape_listings requests_get DOM BeautifulSoup get_location_name
      get_listing_urls get_letting_information get_description get_price
      get_address get_nearest_stations clock strftime urlencode
      base_search_url remove_duplicate_listings ids w
    = (Ok (remove_duplicate_listings gathered), w')
    /\ NoDup (url <$> remove_duplicate_listings gathered)
    /\ sublist (remove_duplicate_listings gathered) gathered
    /\ forall u, u ∈ url <$> gathered ->
         exists l, head (filter (fun l => url l = u) gathered) = Some l
                   /\ filter (fun l => url l = u)
                        (remove_duplicate_listings gathered) = [l].
Proof.
  intros rg DOM BS gln glu gli gd gp ga gns clock strftime ue base ids w w'
    gathered Hloop.
  split; [| split; [| split]].
  - unfold scrape_listings. erewrite bind_Ok by exact Hloop. reflexivity.
  - apply remove_duplicates_from_NoDup.
  - apply remove_duplicates_from_sublist.
  - intros u Hu. by apply remove_duplicates_from_first.
Qed.

Lemma scrape_listings_removes_duplicates_witness :
  Scenario.scrape_listings_loop_on Scenario.requests_get
    ["REGION^93802"; "REGION^87521"] (Scenario.world Scenario.config_ini)
  = (Ok (Scenario.returned []
           (Scenario.scrape_listings_loop_on Scenario.requests_get
              ["REGION^93802"; "REGION^87521"]
              (Scenario.world Scenario.config_ini))),
     (Scenario.scrape_listings_loop_on Scenario.requests_get
        ["REGION^93802"; "REGION^87521"]
        (Scenario.world Scenario.config_ini)).2)
  /\ url <$> Scenario.returned []
       (Scenario.scrape_listings_loop_on Scenario.requests_get
          ["REGION^93802"; "REGION^87521"]
          (Scenario.world Scenario.config_ini))
     = ["/p/1"; "/p/2"; "/p/1"; "/p/2"; "/p/3"]
  /\ NoDup (url <$> remove_duplicate_listings
              (Scenario.returned []
                 (Scenario.scrape_listings_loop_on Scenario.requests_get
                    ["REGION^93802"; "REGION^87521"]
                    (Scenario.world Scenario.config_ini)))).
Proof.
  assert (Hrun : Scenario.scrape_listings_loop_on Scenario.requests_get
            ["REGION^93802"; "REGION^87521"] (Scenario.world Scenario.config_ini)
          = (Ok (Scenario.returned []
                   (Scenario.scrape_listings_loop_on Scenario.requests_get
                      ["REGION^93802"; "REGION^87521"]
                      (Scenario.world Scenario.config_ini))),
             (Scenario.scrape_listings_loop_on Scenario.requests_get
                ["REGION^93802"; "REGION^87521"]
                (Scenario.world Scenario.config_ini)).2)).
  { vm_compute. reflexivity. }
  split; [exact Hrun |]. split; [vm_compute; reflexivity |].
  exact (proj1 (proj2
    (scrape_listings_removes_duplicates Scenario.requests_get Scenario.Page
       Scenario.BeautifulSoup Scenario.location_name Scenario.listing_urls
       Scenario.letting_information Scenario.detail Scenario.detail
       Scenario.detail Scenario.detail Scenario.clock Scenario.strftime
       Scenario.urlencode Scenario.base_search_url
       ["REGION^93802"; "REGION^87521"] (Scenario.world Scenario.config_ini)
       _ _ Hrun))).
Defined.

(** ** The shared filters *)

(** C8: [build_search_url] merges the options of the [filters] section
    with the location identifier in a list of its own: the configuration is
    the same after the call, the lists that existed before the call are
    unchanged, and a second call for another location sees the same filters
    as the first. *)
Theorem build_search_url_keeps_filters :
  forall urlencode base_search_url (id1 id2 : string) (w : World) options,
    assoc "filters" (config w) = Some options ->
    exists w1 w2,
      build_search_url urlencode base_search_url id1 w
        = (Ok (base_search_url
               +:+ urlencode (options ++ [("locationIdentifier", id1)])), w1)
      /\ build_search_url urlencode base_search_url id2 w1
           = (Ok (base_search_url
                  +:+ urlencode (options ++ [("locationIdentifier", id2)])), w2)
      /\ config w1 = config w /\ config w2 = config w
      /\ assoc "filters" (config w2) = Some options
      /\ heap w1 !! length (heap w)
         = Some (options ++ [("locationIdentifier", id1)])
      /\ heap w2 !! length (heap w)
         = Some (options ++ [("locationIdentifier", id1)])
      /\ forall r, (r < length (heap w))%nat -> heap w2 !! r = heap w !! r.
Proof.
  intros ue base id1 id2 w options Hf.
  pose proof (build_search_url_run ue base id1 w options Hf) as H1.
  set (w1 := set_heap (heap w ++ [options ++ [("locationIdentifier", id1)]]) w) in *.
  assert (Hf1 : assoc "filters" (config w1) = Some options) by exact Hf.
  pose proof (build_search_url_run ue base id2 w1 options Hf1) as H2.
  eexists. eexists. split; [exact H1 |]. split; [exact H2 |].
  simpl. repeat split; try done.
  - by rewrite lookup_app_r, Nat.sub_diag by lia.
  - rewrite lookup_app_l by (rewrite length_app; simpl; lia).
    by rewrite lookup_app_r, Nat.sub_diag by lia.
  - intros r Hr. rewrite lookup_app_l by (rewrite length_app; simpl; lia).
    by rewrite lookup_app_l.
Qed.

Lemma build_search_url_keeps_filters_witness :
  assoc "filters" (config (Scenario.world Scenario.config_ini))
  = Some Scenario.filters
  /\ exists w1 w2,
       build_search_url Scenario.urlencode Scenario.base_search_url
         "REGION^93802" (Scenario.world Scenario.config_ini)
       = (Ok (Scenario.search_url "REGION^93802"), w1)
       /\ build_search_url Scenario.urlencode Scenario.base_search_url
            "REGION^87521" w1
          = (Ok (Scenario.search_url "REGION^87521"), w2)
       /\ config w2 = Scenario.config_ini
       /\ assoc "filters" (config w2) = Some Scenario.filters.
Proof.
  split; [reflexivity |].
  destruct (build_search_url_keeps_filters Scenario.urlencode
              Scenario.base_search_url "REGION^93802" "REGION^87521"
              (Scenario.world Scenario.config_ini) Scenario.filters eq_refl)
    as (w1 & w2 & H1 & H2 & _ & Hc & Hf & _).
  exists w1, w2. repeat split; assumption.
Defined.

(** ** The notification *)

(** C9: after [add_listings] has returned its counts, [process_listings]
    sends no mail when written is 0, and sends exactly one, with the
    summary message, when written is at least 1 and the configuration has a
    [mailer] section; the message holds the eligible, written and duplicate
    counts. *)
Theorem notification_gated_on_written :
  forall propertyMappings exists_in sheet_name smtp (listings : list Listing)
         (w w1 : World) (written duplicates : nat),
    add_listings propertyMappings exists_in listings w
      = (Ok (written, duplicates), w1) ->
    let w' := (process_listings propertyMappings exists_in sheet_name smtp
                 listings w).2 in
    let message := summary sheet_name (length listings) written duplicates in
    (written = 0%nat -> outbox w' = outbox w)
    /\ (forall options, (1 <= written)%nat ->
          assoc "mailer" (config w) = Some options ->
          outbox w' = outbox w ++ [(dict options, message)])
    /\ (assoc "mailer" (config w) = None -> outbox w' = outbox w)
    /\ contains (pretty (length listings)) message
    /\ contains (pretty written) message
    /\ contains (pretty duplicates) message.
Proof.
  intros pm ex name smtp listings w w1 written duplicates Hadd w' message.
  subst w'. rewrite (process_listings_outbox pm ex name smtp _ _ _ _ _ Hadd).
  split; [| split; [| split]].
  - intros ->. by destruct (assoc "mailer" (config w)).
  - intros options Hw ->. destruct written; [lia | done].
  - by intros ->.
  - apply summary_contains.
Qed.

Lemma notification_gated_on_written_witness :
  add_listings Scenario.propertyMappings Scenario.exists_in
    Scenario.two_listings (Scenario.world Scenario.config_with_mailer)
  = (Ok (2%nat, 0%nat),
     (add_listings Scenario.propertyMappings Scenario.exists_in
        Scenario.two_listings (Scenario.world Scenario.config_with_mailer)).2)
  /\ outbox (process_listings Scenario.propertyMappings Scenario.exists_in
               Scenario.sheet_name Scenario.smtp Scenario.two_listings
               (Scenario.world Scenario.config_with_mailer)).2
     = [(dict [("recipient", "me@example.com")],
         summary Scenario.sheet_name 2 2 0)].
Proof.
  assert (Hadd : add_listings Scenario.propertyMappings Scenario.exists_in
            Scenario.two_listings (Scenario.world Scenario.config_with_mailer)
          = (Ok (2%nat, 0%nat),
             (add_listings Scenario.propertyMappings Scenario.exists_in
                Scenario.two_listings
                (Scenario.world Scenario.config_with_mailer)).2)).
  { vm_compute. reflexivity. }
  split; [exact Hadd |].
  exact (proj1 (proj2
    (notification_gated_on_written Scenario.propertyMappings
       Scenario.exists_in Scenario.sheet_name Scenario.smtp
       Scenario.two_listings (Scenario.world Scenario.config_with_mailer)
       _ 2%nat 0%nat Hadd))
    [("recipient", "me@example.com")] ltac:(lia) eq_refl).
Defined.

Example summary_of_the_run :
  summary Scenario.sheet_name 2 2 0
  = nl +:+ "2 eligible properties were found." +:+ nl
    +:+ "2 new properties were added to the worksheet Listings." +:+ nl
    +:+ "0 properties already existed on the sheet and were ignored." +:+ nl.
Proof. vm_compute. reflexivity. Qed.

Example no_mail_when_nothing_is_written :
  outbox (process_listings Scenario.propertyMappings Scenario.exists_in
            Scenario.sheet_name Scenario.smtp []
            (Scenario.world Scenario.config_with_mailer)).2 = [].
Proof. vm_compute. reflexivity. Qed.

(** ** The two counters *)

(** C10: whenever [add_listings] returns its pair, written + duplicates is
    the number of listings it was given; and it does return for every
    sequence of listings that carry the attributes of the row. *)
Theorem add_listings_counts_sum_to_length :
  forall propertyMappings exists_in (listings : list Listing) (w : World),
    (forall written duplicates w',
        add_listings propertyMappings exists_in listings w
          = (Ok (written, duplicates), w') ->
        (written + duplicates = length listings)%nat)
    /\ ((forall l a, l ∈ listings -> a ∈ propertyMappings.*2 ->
                     is_Some (vars l !! a)) ->
        exists written duplicates w',
          add_listings propertyMappings exists_in listings w
            = (Ok (written, duplicates), w')).
Proof.
  intros pm ex listings w. unfold add_listings. split.
  - intros wr du w' Hrun.
    apply bind_inv_Ok in Hrun as (? & w1 & _ & Hrun).
    apply add_listings_loop_sum in Hrun. lia.
  - intros Hall.
    destruct (add_listings_loop_total pm ex listings 0%nat 0%nat
                (set_stdout (stdout w ++ ["Writing listings to sheet..."]) w) Hall)
      as (wr & du & w' & Hrun).
    exists wr, du, w'. erewrite bind_Ok; [exact Hrun | reflexivity].
Qed.

Lemma add_listings_counts_sum_to_length_witness :
  exists written duplicates w',
    add_listings Scenario.propertyMappings Scenario.exists_in
      Scenario.three_listings (Scenario.world Scenario.config_ini)
    = (Ok (written, duplicates), w')
    /\ (written + duplicates = 3)%nat.
Proof.
  destruct (add_listings_counts_sum_to_length Scenario.propertyMappings
              Scenario.exists_in Scenario.three_listings
              (Scenario.world Scenario.config_ini)) as [Hsum Hreturns].
  destruct Hreturns as (written & duplicates & w' & Hrun).
  { apply Forall_attributes. apply (bool_decide_unpack _). vm_compute. exact I. }
  exists written, duplicates, w'. split; [exact Hrun |].
  exact (Hsum written duplicates w' Hrun).
Defined.

(** * Further properties of the code *)

(** ** sheet.py: the row of a listing *)

Lemma build_row_loop_Forall2 attributes (d : gmap string pyval) row :
  build_row_loop attributes d = Ok row <->
  Forall2 (fun a v => d !! a = Some v) attributes row.
Proof.
  revert row. induction attributes as [|a rest IH]; intros row; simpl.
  - split.
    + intros [= <-]. constructor.
    + intros ->%Forall2_nil_inv_l. reflexivity.
  - destruct (d !! a) as [v|] eqn:Hv.
    + destruct (build_row_loop rest d) as [cells|e] eqn:Hcells; simpl.
      * split.
        -- intros [= <-]. constructor; [done | by apply IH].
        -- intros (v' & cells' & Hv' & Hrest & ->)%Forall2_cons_inv_l.
           apply IH in Hrest. by simplify_eq.
      * split; [discriminate |].
        intros (v' & cells' & _ & Hrest & ->)%Forall2_cons_inv_l.
        apply IH in Hrest. discriminate.
    + split; [discriminate |].
      intros (v' & cells' & Hv' & _)%Forall2_cons_inv_l. congruence.
Qed.

(** [build_row] returns a row exactly when the listing has every mapped
    attribute; the row then has one cell per column of [propertyMappings],
    in column order, each holding the value of the attribute mapped to
    that column. *)
Theorem build_row_cells :
  forall propertyMappings (listing : Listing) (row : list pyval),
    build_row propertyMappings listing = Ok row <->
    Forall2 (fun column v => vars listing !! column.2 = Some v)
      propertyMappings row.
Proof.
  intros pm listing row. unfold build_row.
  rewrite build_row_loop_Forall2, Forall2_fmap_l. reflexivity.
Qed.

Lemma build_row_loop_Raise attributes (d : gmap string pyval) e :
  build_row_loop attributes d = Raise e <->
  exists before a after,
    attributes = before ++ a :: after
    /\ Forall (fun b => is_Some (d !! b)) before
    /\ d !! a = None /\ e = KeyError a.
Proof.
  induction attributes as [|a rest IH]; simpl.
  - split; [discriminate |].
    intros (before & b & after & Heq & _). by destruct before.
  - destruct (d !! a) as [v|] eqn:Hv.
    + destruct (build_row_loop rest d) as [cells|e'] eqn:Hcells; simpl.
      * split; [discriminate |].
        intros (before & b & after & Heq & Hbefore & Hb & ->).
        destruct before as [|b0 before]; simplify_eq/=.
        assert (Ok cells = Raise (KeyError b)) as Habs; [| discriminate].
        apply IH. exists before, b, after.
        by inversion Hbefore.
      * split.
        -- intros [= ->]. destruct (proj1 IH eq_refl)
             as (before & b & after & -> & Hbefore & Hb & ->).
           exists (a :: before), b, after. repeat split; [| done].
           constructor; [by rewrite Hv | done].
        -- intros (before & b & after & Heq & Hbefore & Hb & ->).
           destruct before as [|b0 before]; simplify_eq/=.
           apply (proj2 IH). exists before, b, after.
           by inversion Hbefore.
    + split.
      * intros [= <-]. by exists [], a, rest.
      * intros (before & b & after & Heq & Hbefore & Hb & ->).
        destruct before as [|b0 before]; simplify_eq/=; [done |].
        inversion Hbefore as [|?? [? ?]]; congruence.
Qed.

(** [build_row] raises only [KeyError], for the first mapped attribute
    that the listing does not have. *)
Theorem build_row_KeyError :
  forall propertyMappings (listing : Listing) (e : exn),
    build_row propertyMappings listing = Raise e <->
    exists before a after,
      propertyMappings.*2 = before ++ a :: after
      /\ Forall (fun b => is_Some (vars listing !! b)) before
      /\ vars listing !! a = None /\ e = KeyError a.
Proof. intros pm listing e. apply build_row_loop_Raise. Qed.

(** ** sheet.py: what [add_listings] does to the worksheet *)

Lemma insert_row_below_header row header (rest : list (list pyval)) :
  insert_row row 2 (header :: rest) = header :: row :: rest.
Proof.
  unfold insert_row. cbn [length].
  replace (2 - 1 - S (length rest))%nat with 0%nat by lia.
  cbn. by rewrite app_nil_r.
Qed.

Section AddListingsFacts.
Variable propertyMappings : list (string * string).
Variable exists_in : list (list pyval) -> string -> bool.

Lemma add_listings_loop_rows listings :
  forall written duplicates (w : World) header rest written' duplicates' w',
    worksheet w = header :: rest ->
    add_listings_loop propertyMappings exists_in listings written duplicates w
      = (Ok (written', duplicates'), w') ->
    exists kept rows,
      sublist kept listings
      /\ Forall2 (fun l row => build_row propertyMappings l = Ok row) kept rows
      /\ written' = (written + length rows)%nat
      /\ worksheet w' = header :: reverse rows ++ rest.
Proof.
  induction listings as [|l ls IH];
    intros wr du w header rest wr' du' w' Hws Hrun; simpl in Hrun.
  - injection Hrun as <- <- <-. exists [], []. simpl.
    repeat split; [constructor | constructor | lia | done].
  - unfold mbind, M_bind, gets in Hrun.
    destruct (exists_in (worksheet w) (url l)); simpl in Hrun.
    + destruct (IH _ _ _ _ _ _ _ _ Hws Hrun) as (kept & rows & Hsub & Hrows & ? & ?).
      exists kept, rows. repeat split; try done. by apply sublist_cons.
    + unfold lift, modify in Hrun.
      destruct (build_row propertyMappings l) as [row|] eqn:Hrow; [| discriminate].
      rewrite Hws, insert_row_below_header in Hrun.
      eapply (IH _ _ _ header (row :: rest)) in Hrun; [| reflexivity].
      destruct Hrun as (kept & rows & Hsub & Hrows & -> & Hws').
      exists (l :: kept), (row :: rows). repeat split.
      * by apply sublist_skip.
      * by constructor.
      * simpl. lia.
      * rewrite Hws', reverse_cons, <- app_assoc. reflexivity.
Qed.

Lemma add_listings_loop_app before after :
  forall written duplicates (w : World),
    add_listings_loop propertyMappings exists_in (before ++ after)
      written duplicates w
    = (add_listings_loop propertyMappings exists_in before written duplicates
       ≫= fun '(written', duplicates') =>
            add_listings_loop propertyMappings exists_in after
              written' duplicates') w.
Proof.
  induction before as [|l ls IH]; intros wr du w; [done |].
  simpl. unfold mbind, M_bind, gets.
  destruct (exists_in (worksheet w) (url l)); simpl; [apply IH |].
  unfold lift, modify. destruct (build_row propertyMappings l); [| done].
  apply IH.
Qed.
End AddListingsFacts.

(** On a worksheet with a header row, [add_listings] keeps the header and
    every row that was on the sheet, in their order, and puts the rows it
    writes between them, right below the header, the last written first;
    the rows are those of the listings it counted as written, one each. *)
Theorem add_listings_writes_below_header :
  forall propertyMappings exists_in (listings : list Listing) (w w' : World)
         (header : list pyval) (rest : list (list pyval))
         (written duplicates : nat),
    worksheet w = header :: rest ->
    add_listings propertyMappings exists_in listings w
      = (Ok (written, duplicates), w') ->
    exists kept rows,
      sublist kept listings
      /\ Forall2 (fun l row => build_row propertyMappings l = Ok row) kept rows
      /\ length rows = written
      /\ worksheet w' = header :: reverse rows ++ rest.
Proof.
  intros pm ex listings w w' header rest written duplicates Hws Hrun.
  unfold add_listings in Hrun.
  apply bind_inv_Ok in Hrun as ([] & w0 & Hprint & Hloop).
  injection Hprint as <-.
  eapply (add_listings_loop_rows pm ex listings _ _ _ header rest) in Hloop;
    [| exact Hws].
  destruct Hloop as (kept & rows & Hsub & Hrows & -> & Hws').
  by exists kept, rows.
Qed.

(** [add_listings] does not undo what it wrote: when a listing that is new
    to the sheet lacks a mapped attribute, the call raises the [KeyError]
    of [build_row], and the rows of the listings before it stay on the
    sheet. *)
Theorem add_listings_raises_after_writing :
  forall propertyMappings exists_in (before : list Listing) (l : Listing)
         (after : list Listing) (w w1 : World) (written duplicates : nat)
         (e : exn),
    add_listings propertyMappings exists_in before w
      = (Ok (written, duplicates), w1) ->
    exists_in (worksheet w1) (url l) = false ->
    build_row propertyMappings l = Raise e ->
    add_listings propertyMappings exists_in (before ++ l :: after) w
    = (Raise e, w1).
Proof.
  intros pm ex before l after w w1 written duplicates e Hrun Hnew Hrow.
  unfold add_listings in *.
  apply bind_inv_Ok in Hrun as ([] & w0 & Hprint & Hloop).
  erewrite bind_Ok by exact Hprint.
  rewrite add_listings_loop_app. erewrite bind_Ok by exact Hloop.
  simpl. unfold mbind, M_bind, gets, lift. by rewrite Hnew, Hrow.
Qed.

Lemma add_listings_writes_below_header_witness :
  worksheet (Scenario.world Scenario.config_ini) = Scenario.header :: []
  /\ exists kept rows,
       sublist kept Scenario.two_listings
       /\ length rows = 2%nat
       /\ worksheet
            (add_listings Scenario.propertyMappings Scenario.exists_in
               Scenario.two_listings (Scenario.world Scenario.config_ini)).2
          = Scenario.header :: reverse rows ++ [].
Proof.
  split; [reflexivity |].
  assert (Hadd : add_listings Scenario.propertyMappings Scenario.exists_in
            Scenario.two_listings (Scenario.world Scenario.config_ini)
          = (Ok (2%nat, 0%nat),
             (add_listings Scenario.propertyMappings Scenario.exists_in
                Scenario.two_listings
                (Scenario.world Scenario.config_ini)).2)).
  { vm_compute. reflexivity. }
  destruct (add_listings_writes_below_header Scenario.propertyMappings
              Scenario.exists_in Scenario.two_listings
              (Scenario.world Scenario.config_ini) _ Scenario.header []
              2%nat 0%nat eq_refl Hadd)
    as (kept & rows & Hsub & _ & Hlen & Hws).
  exists kept, rows. split; [exact Hsub |]. split; [exact Hlen | exact Hws].
Defined.

Lemma add_listings_raises_after_writing_witness :
  build_row Scenario.propertyMappings (new_Listing "/p/9")
  = Raise (KeyError "date_available")
  /\ (add_listings Scenario.propertyMappings Scenario.exists_in
        ([Scenario.listing "/p/2" "16/08/2020"] ++ new_Listing "/p/9"
         :: [Scenario.listing "/p/3" "01/09/2020"])
        (Scenario.world Scenario.config_ini)).1
     = Raise (KeyError "date_available")
  /\ worksheet
       (add_listings Scenario.propertyMappings Scenario.exists_in
          ([Scenario.listing "/p/2" "16/08/2020"] ++ new_Listing "/p/9"
           :: [Scenario.listing "/p/3" "01/09/2020"])
          (Scenario.world Scenario.config_ini)).2
     = [Scenario.header; [VStr "/p/2"; VStr "16/08/2020"]].
Proof.
  split; [reflexivity |].
  assert (Hadd : add_listings Scenario.propertyMappings Scenario.exists_in
            [Scenario.listing "/p/2" "16/08/2020"]
            (Scenario.world Scenario.config_ini)
          = (Ok (1%nat, 0%nat),
             (add_listings Scenario.propertyMappings Scenario.exists_in
                [Scenario.listing "/p/2" "16/08/2020"]
                (Scenario.world Scenario.config_ini)).2)).
  { vm_compute. reflexivity. }
  rewrite (add_listings_raises_after_writing Scenario.propertyMappings
             Scenario.exists_in [Scenario.listing "/p/2" "16/08/2020"]
             (new_Listing "/p/9") [Scenario.listing "/p/3" "01/09/2020"]
             (Scenario.world Scenario.config_ini) _ 1%nat 0%nat
             (KeyError "date_available") Hadd eq_refl eq_refl).
  split; [reflexivity | vm_compute; reflexivity].
Defined.

(** ** listing.py and rightmove_scraper.py: scraping *)

Lemma set_ticks_same (w : World) : set_ticks (ticks w) w = w.
Proof. by destruct w. Qed.

Lemma set_ticks_twice n m (w : World) : set_ticks n (set_ticks m w) = set_ticks n w.
Proof. reflexivity. Qed.

Section ScrapeFacts.
Variable requests_get : string -> result Response.
Variable DOM : Type.
Variable BeautifulSoup : string -> DOM.
Variable get_location_name : DOM -> string.
Variable get_listing_urls : DOM -> list string.
Variable get_letting_information : DOM -> gmap string pyval.
Variables get_description get_price get_address get_nearest_stations : DOM -> pyval.
Variable clock : nat -> datetime.
Variable strftime : date -> string -> string.
Variable urlencode : list (string * string) -> string.
Variable base_search_url : string.

Let details_of :=
  scrape_details requests_get DOM BeautifulSoup get_letting_information
    get_description get_price get_address get_nearest_stations clock strftime.
Let details_all :=
  scrape_details_all requests_get DOM BeautifulSoup get_letting_information
    get_description get_price get_address get_nearest_stations clock strftime.
Let search :=
  scrape requests_get DOM BeautifulSoup get_location_name get_listing_urls
    get_letting_information get_description get_price get_address
    get_nearest_stations clock strftime.
Let searches :=
  scrape_listings_loop requests_get DOM BeautifulSoup get_location_name
    get_listing_urls get_letting_information get_description get_price
    get_address get_nearest_stations clock strftime urlencode base_search_url.

Lemma scrape_details_fetched l (w : World) response :
  requests_get (url l) = Ok response ->
  exists l', details_of l w = (Ok l', set_ticks (S (ticks w)) w)
             /\ url l' = url l.
Proof.
  intros Hget. unfold details_of, scrape_details, get_dom.
  unfold lift, date_today, datetime_now, mbind, M_bind, mret, M_ret.
  rewrite Hget. eexists. split; reflexivity.
Qed.

Lemma scrape_details_failed l (w : World) e :
  requests_get (url l) = Raise e -> details_of l w = (Raise e, w).
Proof.
  intros Hget. unfold details_of, scrape_details, get_dom.
  unfold lift, mbind, M_bind. by rewrite Hget.
Qed.

Lemma scrape_details_all_fetched listings : forall w : World,
  Forall (fun l => is_Ok (requests_get (url l)) = true) listings ->
  exists listings',
    details_all listings w
      = (Ok listings', set_ticks (ticks w + length listings) w)
    /\ url <$> listings' = url <$> listings.
Proof.
  induction listings as [|l ls IH]; intros w Hall.
  - exists []. simpl. by rewrite Nat.add_0_r, set_ticks_same.
  - inversion Hall as [|? ? Hl Hls]; subst.
    destruct (requests_get (url l)) as [response|] eqn:Hget; [| discriminate].
    destruct (scrape_details_fetched l w response Hget) as (l' & Hrun & Hurl).
    destruct (IH (set_ticks (S (ticks w)) w) Hls) as (ls' & Hruns & Hurls).
    exists (l' :: ls'). split.
    + unfold details_all in *. simpl. unfold details_of in Hrun.
      erewrite bind_Ok by exact Hrun. erewrite bind_Ok by exact Hruns.
      unfold mret, M_ret. simpl. rewrite set_ticks_twice.
      do 2 f_equal. lia.
    + rewrite !fmap_cons. by rewrite Hurl, Hurls.
Qed.

Lemma scrape_details_all_failed before l after e : forall w : World,
  Forall (fun l => is_Ok (requests_get (url l)) = true) before ->
  requests_get (url l) = Raise e ->
  details_all (before ++ l :: after) w
  = (Raise e, set_ticks (ticks w + length before) w).
Proof.
  induction before as [|l0 ls IH]; intros w Hall Hget.
  - simpl. unfold details_all. simpl.
    erewrite bind_Raise by (by apply scrape_details_failed).
    by rewrite Nat.add_0_r, set_ticks_same.
  - inversion Hall as [|? ? Hl Hls]; subst.
    destruct (requests_get (url l0)) as [response|] eqn:Hget0; [| discriminate].
    destruct (scrape_details_fetched l0 w response Hget0) as (l' & Hrun & _).
    unfold details_all in *. simpl. unfold details_of in Hrun.
    erewrite bind_Ok by exact Hrun.
    erewrite bind_Raise by (by apply IH).
    simpl. rewrite set_ticks_twice. do 2 f_equal. lia.
Qed.

Lemma Forall_new_Listing urls :
  Forall (fun u => is_Ok (requests_get u) = true) urls ->
  Forall (fun l => is_Ok (requests_get (url l)) = true) (new_Listing <$> urls).
Proof. intros H. by apply Forall_fmap. Qed.

Lemma scrape_unfold (search_url : string) (w : World) :
  search search_url w
  = match requests_get search_url with
    | Ok response =>
        details_all
          (new_Listing <$> get_listing_urls (BeautifulSoup (text response)))
          (set_stdout
             (stdout w ++ ["Scraping properties in "
                           +:+ get_location_name (BeautifulSoup (text response))
                           +:+ "..."]) w)
    | Raise e => (Raise e, w)
    end.
Proof.
  unfold search, scrape, lift, print, modify, mbind, M_bind.
  by destruct (requests_get search_url).
Qed.

Lemma scrape_fetched (search_url : string) (w : World) response :
  requests_get search_url = Ok response ->
  Forall (fun u => is_Ok (requests_get u) = true)
    (get_listing_urls (BeautifulSoup (text response))) ->
  exists listings,
    search search_url w
    = (Ok listings,
       set_ticks
         (ticks w + length (get_listing_urls (BeautifulSoup (text response))))
         (set_stdout
            (stdout w ++ ["Scraping properties in "
                          +:+ get_location_name (BeautifulSoup (text response))
                          +:+ "..."]) w))
    /\ url <$> listings = get_listing_urls (BeautifulSoup (text response)).
Proof.
  intros Hget Hall. rewrite scrape_unfold, Hget.
  destruct (scrape_details_all_fetched _
              (set_stdout
                 (stdout w ++ ["Scraping properties in "
                               +:+ get_location_name (BeautifulSoup (text response))
                               +:+ "..."]) w)
              (Forall_new_Listing _ Hall)) as (listings & Hrun & Hurls).
  exists listings. rewrite Hrun.
  rewrite length_fmap. split; [reflexivity |].
  rewrite Hurls, <- list_fmap_compose. apply list_fmap_id.
Qed.

Lemma scrape_listing_failed (search_url : string) (w : World) response
    before u after e :
  requests_get search_url = Ok response ->
  get_listing_urls (BeautifulSoup (text response)) = before ++ u :: after ->
  Forall (fun u => is_Ok (requests_get u) = true) before ->
  requests_get u = Raise e ->
  search search_url w
  = (Raise e,
     set_ticks (ticks w + length before)
       (set_stdout
          (stdout w ++ ["Scraping properties in "
                        +:+ get_location_name (BeautifulSoup (text response))
                        +:+ "..."]) w)).
Proof.
  intros Hget Hurls Hall Hfail.
  rewrite scrape_unfold, Hget, Hurls, fmap_app, fmap_cons.
  pose proof (scrape_details_all_failed (new_Listing <$> before)
                (new_Listing u) (new_Listing <$> after) e
                (set_stdout
                   (stdout w ++ ["Scraping properties in "
                                 +:+ get_location_name (BeautifulSoup (text response))
                                 +:+ "..."]) w)
                (Forall_new_Listing _ Hall) Hfail) as Hrun.
  rewrite Hrun. by rewrite length_fmap.
Qed.

(** The listings gathered from [listings] on are those gathered from the
    empty list, after [listings]. *)
Lemma scrape_listings_loop_from ids : forall listings (w : World),
  searches ids listings w
  = match searches ids [] w with
    | (Ok found, w') => (Ok (listings ++ found), w')
    | (Raise e, w') => (Raise e, w')
    end.
Proof.
  induction ids as [|id ids IH]; intros listings w.
  - simpl. unfold mret, M_ret. by rewrite app_nil_r.
  - unfold searches in *. simpl. unfold mbind, M_bind.
    destruct (build_search_url _ _ _ _) as [[search_url|e] w1]; [| done].
    destruct (scrape _ _ _ _ _ _ _ _ _ _ _ _ _ _) as [[found|e] w2]; [| done].
    rewrite (IH (listings ++ found)), (IH ([] ++ found)).
    destruct (scrape_listings_loop _ _ _ _ _ _ _ _ _ _ _ _ _ _ _ _ _)
      as [[more|e] w3]; [| done].
    by rewrite app_assoc.
Qed.

(** What the searches leave alone, and what they count. *)
Lemma scrape_details_all_frame listings : forall w : World,
  let r := details_all listings w in
  config r.2 = config w /\ worksheet r.2 = worksheet w
  /\ outbox r.2 = outbox w /\ stdout r.2 = stdout w
  /\ forall listings', r.1 = Ok listings' ->
       ticks r.2 = (ticks w + length listings')%nat.
Proof.
  induction listings as [|l ls IH]; intros w; simpl.
  - repeat split. intros ? [= <-]. simpl. lia.
  - unfold details_all in *. simpl. unfold mbind, M_bind.
    destruct (requests_get (url l)) as [response|e] eqn:Hget.
    + destruct (scrape_details_fetched l w response Hget) as (l' & Hrun & _).
      unfold details_of in Hrun. rewrite Hrun.
      specialize (IH (set_ticks (S (ticks w)) w)). simpl in IH.
      destruct (scrape_details_all _ _ _ _ _ _ _ _ _ _ ls _)
        as [[ls'|e] w2]; simpl in *.
      * destruct IH as (? & ? & ? & ? & Hticks). repeat split; try done.
        intros ? [= <-]. rewrite (Hticks ls' eq_refl). simpl. lia.
      * destruct IH as (? & ? & ? & ? & _). repeat split; try done.
    + pose proof (scrape_details_failed l w e Hget) as Hrun.
      unfold details_of in Hrun. rewrite Hrun. simpl. repeat split; done.
Qed.

Lemma scrape_frame (search_url : string) (w : World) :
  let r := search search_url w in
  config r.2 = config w /\ worksheet r.2 = worksheet w
  /\ outbox r.2 = outbox w
  /\ forall listings, r.1 = Ok listings ->
       ticks r.2 = (ticks w + length listings)%nat
       /\ length (stdout r.2) = S (length (stdout w)).
Proof.
  rewrite scrape_unfold.
  destruct (requests_get search_url) as [response|e]; [| by repeat split].
  pose proof (scrape_details_all_frame
                (new_Listing <$> get_listing_urls (BeautifulSoup (text response)))
                (set_stdout
                   (stdout w ++ ["Scraping properties in "
                                 +:+ get_location_name (BeautifulSoup (text response))
                                 +:+ "..."]) w)) as Hframe.
  simpl in Hframe.
  destruct Hframe as (? & ? & ? & Hout & Hticks). repeat split; try done.
  - by apply Hticks.
  - rewrite Hout. simpl. rewrite length_app. simpl. lia.
Qed.

Lemma scrape_listings_loop_frame ids : forall listings (w : World),
  let r := searches ids listings w in
  config r.2 = config w /\ worksheet r.2 = worksheet w
  /\ outbox r.2 = outbox w
  /\ forall gathered, r.1 = Ok gathered ->
       (ticks r.2 + length listings = ticks w + length gathered)%nat
       /\ length (stdout r.2) = (length (stdout w) + length ids)%nat.
Proof.
  induction ids as [|id ids IH]; intros listings w; simpl.
  - split; [done |]. split; [done |]. split; [done |].
    intros gathered [= <-]. simpl. lia.
  - unfold searches in *. simpl. unfold mbind, M_bind.
    pose proof (build_search_url_frame urlencode base_search_url id w) as Hb.
    simpl in Hb.
    destruct (build_search_url _ _ _ _) as [[search_url|e] w1]; simpl in Hb;
      [| destruct Hb as (? & ? & ? & ? & ? & _); by repeat split].
    destruct Hb as (Hc1 & Hw1 & Ht1 & Hs1 & Ho1 & _).
    pose proof (scrape_frame search_url w1) as Hs. simpl in Hs.
    unfold search in Hs.
    destruct (scrape _ _ _ _ _ _ _ _ _ _ _ _ _ _) as [[found|e] w2];
      simpl in Hs.
    + destruct Hs as (Hc2 & Hw2 & Ho2 & Hcount).
      destruct (Hcount found eq_refl) as [Ht2 Hs2].
      specialize (IH (listings ++ found) w2). simpl in IH.
      destruct IH as (Hc3 & Hw3 & Ho3 & Hcount3).
      split; [congruence |]. split; [congruence |]. split; [congruence |].
      intros gathered Hg. destruct (Hcount3 gathered Hg) as [Ht3 Hs3].
      rewrite length_app in Ht3. rewrite Hs1 in Hs2. lia.
    + destruct Hs as (? & ? & ? & _). simpl.
      split; [congruence |]. split; [congruence |]. split; [congruence |].
      discriminate.
Qed.
Lemma scrape_details_values l (w : World) response :
  requests_get (url l) = Ok response ->
  exists l',
    details_of l w = (Ok l', set_ticks (S (ticks w)) w)
    /\ vars l'
       = <["url" := VStr (url l)]>
         (<["deposit" := dict_get (get_letting_information
                                     (BeautifulSoup (text response))) "deposit"]>
         (<["furnished" := dict_get (get_letting_information
                                       (BeautifulSoup (text response))) "furnishing"]>
         (<["date_available" := dict_get (get_letting_information
                                            (BeautifulSoup (text response)))
                                  "date_available"]>
         (<["nearest_stations" := get_nearest_stations
                                    (BeautifulSoup (text response))]>
         (<["location" := get_address (BeautifulSoup (text response))]>
         (<["price" := get_price (BeautifulSoup (text response))]>
         (<["description" := get_description (BeautifulSoup (text response))]>
         (<["date_scraped" := VStr (strftime (date_part (clock (ticks w)))
                                      "%d/%m/%Y")]>
            (details l))))))))).
Proof.
  intros Hget. unfold details_of, scrape_details, get_dom.
  unfold lift, date_today, datetime_now, mbind, M_bind, mret, M_ret.
  rewrite Hget. eexists. split; reflexivity.
Qed.

Lemma scrape_details_has_attributes l (w : World) response :
  requests_get (url l) = Ok response ->
  exists l',
    details_of l w = (Ok l', set_ticks (S (ticks w)) w)
    /\ forall a, a ∈ listing_attributes -> is_Some (vars l' !! a).
Proof.
  intros Hget.
  destruct (scrape_details_values l w response Hget) as (l' & Hrun & Hvars).
  exists l'. split; [done |]. intros a Ha. rewrite Hvars.
  unfold listing_attributes in Ha.
  repeat (apply elem_of_cons in Ha as [->|Ha]; [by simplify_map_eq |]).
  by apply elem_of_nil in Ha.
Qed.
End ScrapeFacts.

(** When the search page and the page of every listing on it load,
    [scrape] returns one listing per URL of the search page, in the order
    of the page and with repeated URLs kept; it prints one line and reads
    the clock once per listing. *)
Theorem scrape_returns_the_listings_of_the_page :
  forall requests_get DOM BeautifulSoup get_location_name get_listing_urls
         get_letting_information get_description get_price get_address
         get_nearest_stations clock strftime
         (search_url : string) (w : World) (response : Response),
    requests_get search_url = Ok response ->
    Forall (fun u => is_Ok (requests_get u) = true)
      (get_listing_urls (BeautifulSoup (text response))) ->
    exists listings,
      scrape requests_get DOM BeautifulSoup get_location_name get_listing_urls
        get_letting_information get_description get_price get_address
        get_nearest_stations clock strftime search_url w
      = (Ok listings,
         set_ticks
           (ticks w + length (get_listing_urls (BeautifulSoup (text response))))
           (set_stdout
              (stdout w ++ ["Scraping properties in "
                            +:+ get_location_name (BeautifulSoup (text response))
                            +:+ "..."]) w))
      /\ url <$> listings = get_listing_urls (BeautifulSoup (text response)).
Proof.
  intros rg DOM BS gln glu gli gd gp ga gns clock strftime search_url w
    response Hget Hall.
  by apply scrape_fetched.
Qed.

Lemma scrape_returns_the_listings_of_the_page_witness :
  Scenario.requests_get (Scenario.search_url "REGION^93802")
  = Ok {| status_code := 200; text := "search A" |}
  /\ exists listings,
       (scrape Scenario.requests_get Scenario.Page Scenario.BeautifulSoup
             Scenario.location_name Scenario.listing_urls
             Scenario.letting_information Scenario.detail Scenario.detail
             Scenario.detail Scenario.detail Scenario.clock Scenario.strftime
             (Scenario.search_url "REGION^93802")
             (Scenario.world Scenario.config_ini)).1 = Ok listings
       /\ url <$> listings = ["/p/1"; "/p/2"; "/p/1"].
Proof.
  split; [reflexivity |].
  destruct (scrape_returns_the_listings_of_the_page Scenario.requests_get
              Scenario.Page Scenario.BeautifulSoup Scenario.location_name
              Scenario.listing_urls Scenario.letting_information
              Scenario.detail Scenario.detail Scenario.detail Scenario.detail
              Scenario.clock Scenario.strftime
              (Scenario.search_url "REGION^93802")
              (Scenario.world Scenario.config_ini)
              {| status_code := 200; text := "search A" |} eq_refl)
    as (listings & Hrun & Hurls).
  { repeat constructor. }
  exists listings. split; [by rewrite Hrun | exact Hurls].
Defined.

(** [scrape] has no handler for a listing of its own either: when the page
    of a listing does not load, [scrape] raises the exception of the fetch,
    having scraped the listings before it, and returns none of them. *)
Theorem listing_fetch_failure_ends_scrape :
  forall requests_get DOM BeautifulSoup get_location_name get_listing_urls
         get_letting_information get_description get_price get_address
         get_nearest_stations clock strftime
         (search_url : string) (w : World) (response : Response)
         (before : list string) (u : string) (after : list string) (e : exn),
    requests_get search_url = Ok response ->
    get_listing_urls (BeautifulSoup (text response)) = before ++ u :: after ->
    Forall (fun u => is_Ok (requests_get u) = true) before ->
    requests_get u = Raise e ->
    scrape requests_get DOM BeautifulSoup get_location_name get_listing_urls
      get_letting_information get_description get_price get_address
      get_nearest_stations clock strftime search_url w
    = (Raise e,
       set_ticks (ticks w + length before)
         (set_stdout
            (stdout w ++ ["Scraping properties in "
                          +:+ get_location_name (BeautifulSoup (text response))
                          +:+ "..."]) w)).
Proof.
  intros rg DOM BS gln glu gli gd gp ga gns clock strftime search_url w
    response before u after e Hget Hurls Hall Hfail.
  by eapply scrape_listing_failed.
Qed.

Lemma listing_fetch_failure_ends_scrape_witness :
  Scenario.requests_get_listing_down "/p/2" = Raise RequestException
  /\ Scenario.listing_urls (Scenario.BeautifulSoup "search A")
     = ["/p/1"] ++ "/p/2" :: ["/p/1"]
  /\ (scrape Scenario.requests_get_listing_down Scenario.Page
        Scenario.BeautifulSoup Scenario.location_name Scenario.listing_urls
        Scenario.letting_information Scenario.detail Scenario.detail
        Scenario.detail Scenario.detail Scenario.clock Scenario.strftime
        (Scenario.search_url "REGION^93802")
        (Scenario.world Scenario.config_ini)).1
     = Raise RequestException.
Proof.
  split; [reflexivity |]. split; [reflexivity |].
  rewrite (listing_fetch_failure_ends_scrape Scenario.requests_get_listing_down
             Scenario.Page Scenario.BeautifulSoup Scenario.location_name
             Scenario.listing_urls Scenario.letting_information
             Scenario.detail Scenario.detail Scenario.detail Scenario.detail
             Scenario.clock Scenario.strftime
             (Scenario.search_url "REGION^93802")
             (Scenario.world Scenario.config_ini)
             {| status_code := 200; text := "search A" |}
             ["/p/1"] "/p/2" ["/p/1"] RequestException
             eq_refl eq_refl ltac:(repeat constructor) eq_refl).
  reflexivity.
Defined.

(** [scrape_details] gives a listing its eight scraped attributes and keeps
    its [url]: the description, price, location and nearest stations are
    what the lookups of the page return, [date_scraped] is the date of the
    clock, and [date_available], [furnished] and [deposit] are the entries
    [date_available], [furnishing] and [deposit] of the letting information,
    [None] for an entry that is missing. *)
Theorem scrape_details_sets_the_attributes :
  forall requests_get DOM BeautifulSoup get_letting_information get_description
         get_price get_address get_nearest_stations clock strftime
         (l : Listing) (w : World) (response : Response),
    requests_get (url l) = Ok response ->
    exists l',
      scrape_details requests_get DOM BeautifulSoup get_letting_information
        get_description get_price get_address get_nearest_stations clock
        strftime l w = (Ok l', set_ticks (S (ticks w)) w)
      /\ getattr l' "url" = Ok (VStr (url l))
      /\ getattr l' "date_scraped"
         = Ok (VStr (strftime (date_part (clock (ticks w))) "%d/%m/%Y"))
      /\ getattr l' "description"
         = Ok (get_description (BeautifulSoup (text response)))
      /\ getattr l' "price" = Ok (get_price (BeautifulSoup (text response)))
      /\ getattr l' "location" = Ok (get_address (BeautifulSoup (text response)))
      /\ getattr l' "nearest_stations"
         = Ok (get_nearest_stations (BeautifulSoup (text response)))
      /\ getattr l' "date_available"
         = Ok (default VNone
                 (get_letting_information (BeautifulSoup (text response))
                    !! "date_available"))
      /\ getattr l' "furnished"
         = Ok (default VNone
                 (get_letting_information (BeautifulSoup (text response))
                    !! "furnishing"))
      /\ getattr l' "deposit"
         = Ok (default VNone
                 (get_letting_information (BeautifulSoup (text response))
                    !! "deposit")).
Proof.
  intros rg DOM BS gli gd gp ga gns clock strftime l w response Hget.
  destruct (scrape_details_values rg DOM BS gli gd gp ga gns clock strftime
              l w response Hget) as (l' & Hrun & Hvars).
  exists l'. split; [exact Hrun |].
  unfold getattr. rewrite Hvars. unfold dict_get.
  repeat split; by simplify_map_eq.
Qed.

Lemma scrape_details_sets_the_attributes_witness :
  Scenario.requests_get (url (new_Listing "/p/3"))
  = Ok {| status_code := 200; text := "listing 3" |}
  /\ exists l',
       (Scenario.scrape_details_on Scenario.requests_get (new_Listing "/p/3")
          (Scenario.world Scenario.config_ini)).1 = Ok l'
       /\ getattr l' "url" = Ok (VStr "/p/3")
       /\ getattr l' "date_available" = Ok VNone
       /\ getattr l' "furnished" = Ok VNone
       /\ getattr l' "deposit" = Ok VNone.
Proof.
  split; [reflexivity |].
  destruct (scrape_details_sets_the_attributes Scenario.requests_get
              Scenario.Page Scenario.BeautifulSoup Scenario.letting_information
              Scenario.detail Scenario.detail Scenario.detail Scenario.detail
              Scenario.clock Scenario.strftime (new_Listing "/p/3")
              (Scenario.world Scenario.config_ini)
              {| status_code := 200; text := "listing 3" |} eq_refl)
    as (l' & Hrun & Hurl & _ & _ & _ & _ & _ & Hdate & Hfurnished & Hdeposit).
  exists l'. split; [by rewrite Hrun |]. split; [exact Hurl |].
  split; [exact Hdate |]. split; [exact Hfurnished | exact Hdeposit].
Defined.

(** A listing that [scrape_details] has scraped can be written to the
    sheet: when [propertyMappings] names none but the nine attributes of a
    listing, [build_row] raises no [KeyError] on it and returns a row with a
    cell for every column. *)
Theorem scraped_listing_has_a_row :
  forall requests_get DOM BeautifulSoup get_letting_information get_description
         get_price get_address get_nearest_stations clock strftime
         propertyMappings (l : Listing) (w : World) (response : Response),
    requests_get (url l) = Ok response ->
    Forall (fun a => a ∈ listing_attributes) (propertyMappings.*2) ->
    exists l' row,
      scrape_details requests_get DOM BeautifulSoup get_letting_information
        get_description get_price get_address get_nearest_stations clock
        strftime l w = (Ok l', set_ticks (S (ticks w)) w)
      /\ build_row propertyMappings l' = Ok row
      /\ length row = length propertyMappings.
Proof.
  intros rg DOM BS gli gd gp ga gns clock strftime pm l w response Hget Hpm.
  destruct (scrape_details_has_attributes rg DOM BS gli gd gp ga gns clock
              strftime l w response Hget) as (l' & Hrun & Hattrs).
  destruct (build_row_loop_total (pm.*2) (vars l')) as (row & Hrow & _).
  { intros a Ha. apply Hattrs. rewrite Forall_forall in Hpm. by apply Hpm. }
  exists l', row. split; [exact Hrun |]. split; [exact Hrow |].
  apply build_row_loop_Forall2, Forall2_length in Hrow.
  by rewrite length_fmap in Hrow.
Qed.

Lemma scraped_listing_has_a_row_witness :
  Scenario.requests_get (url (new_Listing "/p/2"))
  = Ok {| status_code := 200; text := "listing 2" |}
  /\ build_row Scenario.propertyMappings (new_Listing "/p/2")
     = Raise (KeyError "date_available")
  /\ exists l',
       (Scenario.scrape_details_on Scenario.requests_get (new_Listing "/p/2")
          (Scenario.world Scenario.config_ini)).1 = Ok l'
       /\ build_row Scenario.propertyMappings l'
          = Ok [VStr "/p/2"; VStr "16/08/2020"].
Proof.
  split; [reflexivity |]. split; [reflexivity |].
  destruct (scraped_listing_has_a_row Scenario.requests_get
              Scenario.Page Scenario.BeautifulSoup Scenario.letting_information
              Scenario.detail Scenario.detail Scenario.detail Scenario.detail
              Scenario.clock Scenario.strftime Scenario.propertyMappings
              (new_Listing "/p/2") (Scenario.world Scenario.config_ini)
              {| status_code := 200; text := "listing 2" |} eq_refl)
    as (l' & row & Hrun & Hrow & _).
  { apply (bool_decide_unpack _). vm_compute. exact I. }
  exists l'. split; [by rewrite Hrun |].
  injection Hrun as <-. vm_compute. reflexivity.
Defined.

(** The searches compose: searching the locations [ids1 ++ ids2] is
    searching [ids1] and then [ids2] in the world the first searches leave,
    and the listings gathered are those of [ids1] followed by those of
    [ids2]. *)
Theorem scrape_listings_loop_concat :
  forall requests_get DOM BeautifulSoup get_location_name get_listing_urls
         get_letting_information get_description get_price get_address
         get_nearest_stations clock strftime urlencode base_search_url
         (ids1 ids2 : list string) (w w1 w2 : World)
         (found1 found2 : list Listing),
    scrape_listings_loop requests_get DOM BeautifulSoup get_location_name
      get_listing_urls get_letting_information get_description get_price
      get_address get_nearest_stations clock strftime urlencode
      base_search_url ids1 [] w = (Ok found1, w1) ->
    scrape_listings_loop requests_get DOM BeautifulSoup get_location_name
      get_listing_urls get_letting_information get_description get_price
      get_address get_nearest_stations clock strftime urlencode
      base_search_url ids2 [] w1 = (Ok found2, w2) ->
    scrape_listings_loop requests_get DOM BeautifulSoup get_location_name
      get_listing_urls get_letting_information get_description get_price
      get_address get_nearest_stations clock strftime urlencode
      base_search_url (ids1 ++ ids2) [] w = (Ok (found1 ++ found2), w2).
Proof.
  intros rg DOM BS gln glu gli gd gp ga gns clock strftime ue base
    ids1 ids2 w w1 w2 found1 found2 H1 H2.
  rewrite scrape_listings_loop_app. erewrite bind_Ok by exact H1.
  rewrite scrape_listings_loop_from. by rewrite H2.
Qed.

Lemma scrape_listings_loop_concat_witness :
  url <$> Scenario.returned []
    (Scenario.scrape_listings_loop_on Scenario.requests_get ["REGION^93802"]
       (Scenario.world Scenario.config_ini))
  = ["/p/1"; "/p/2"; "/p/1"]
  /\ url <$> Scenario.returned []
       (Scenario.scrape_listings_loop_on Scenario.requests_get ["REGION^87521"]
          (Scenario.scrape_listings_loop_on Scenario.requests_get
             ["REGION^93802"] (Scenario.world Scenario.config_ini)).2)
     = ["/p/2"; "/p/3"]
  /\ url <$> Scenario.returned []
       (Scenario.scrape_listings_loop_on Scenario.requests_get
          (["REGION^93802"] ++ ["REGION^87521"])
          (Scenario.world Scenario.config_ini))
     = ["/p/1"; "/p/2"; "/p/1"; "/p/2"; "/p/3"].
Proof.
  split; [vm_compute; reflexivity |]. split; [vm_compute; reflexivity |].
  assert (H1 : Scenario.scrape_listings_loop_on Scenario.requests_get
            ["REGION^93802"] (Scenario.world Scenario.config_ini)
          = (Ok (Scenario.returned []
                   (Scenario.scrape_listings_loop_on Scenario.requests_get
                      ["REGION^93802"] (Scenario.world Scenario.config_ini))),
             (Scenario.scrape_listings_loop_on Scenario.requests_get
                ["REGION^93802"] (Scenario.world Scenario.config_ini)).2)).
  { vm_compute. reflexivity. }
  assert (H2 : Scenario.scrape_listings_loop_on Scenario.requests_get
            ["REGION^87521"]
            (Scenario.scrape_listings_loop_on Scenario.requests_get
               ["REGION^93802"] (Scenario.world Scenario.config_ini)).2
          = (Ok (Scenario.returned []
                   (Scenario.scrape_listings_loop_on Scenario.requests_get
                      ["REGION^87521"]
                      (Scenario.scrape_listings_loop_on Scenario.requests_get
                         ["REGION^93802"]
                         (Scenario.world Scenario.config_ini)).2)),
             (Scenario.scrape_listings_loop_on Scenario.requests_get
                ["REGION^87521"]
                (Scenario.scrape_listings_loop_on Scenario.requests_get
                   ["REGION^93802"]
                   (Scenario.world Scenario.config_ini)).2).2)).
  { vm_compute. reflexivity. }
  rewrite (scrape_listings_loop_concat Scenario.requests_get Scenario.Page
             Scenario.BeautifulSoup Scenario.location_name
             Scenario.listing_urls Scenario.letting_information
             Scenario.detail Scenario.detail Scenario.detail Scenario.detail
             Scenario.clock Scenario.strftime Scenario.urlencode
             Scenario.base_search_url ["REGION^93802"] ["REGION^87521"]
             (Scenario.world Scenario.config_ini) _ _ _ _ H1 H2).
  vm_compute. reflexivity.
Defined.

(** Searching never writes to the worksheet, sends no mail and leaves the
    configuration as it is, whatever its outcome; when it returns, it has
    printed one line per location and read the clock once per listing it
    gathered. *)
Theorem searches_leave_sheet_and_outbox :
  forall requests_get DOM BeautifulSoup get_location_name get_listing_urls
         get_letting_information get_description get_price get_address
         get_nearest_stations clock strftime urlencode base_search_url
         (ids : list string) (w : World),
    config (scrape_listings_loop requests_get DOM BeautifulSoup
              get_location_name get_listing_urls get_letting_information
              get_description get_price get_address get_nearest_stations
              clock strftime urlencode base_search_url ids [] w).2
    = config w
    /\ worksheet (scrape_listings_loop requests_get DOM BeautifulSoup
                    get_location_name get_listing_urls get_letting_information
                    get_description get_price get_address get_nearest_stations
                    clock strftime urlencode base_search_url ids [] w).2
       = worksheet w
    /\ outbox (scrape_listings_loop requests_get DOM BeautifulSoup
                 get_location_name get_listing_urls get_letting_information
                 get_description get_price get_address get_nearest_stations
                 clock strftime urlencode base_search_url ids [] w).2
       = outbox w
    /\ forall gathered,
         (scrape_listings_loop requests_get DOM BeautifulSoup
            get_location_name get_listing_urls get_letting_information
            get_description get_price get_address get_nearest_stations
            clock strftime urlencode base_search_url ids [] w).1 = Ok gathered ->
         ticks (scrape_listings_loop requests_get DOM BeautifulSoup
                  get_location_name get_listing_urls get_letting_information
                  get_description get_price get_address get_nearest_stations
                  clock strftime urlencode base_search_url ids [] w).2
         = (ticks w + length gathered)%nat
         /\ length (stdout (scrape_listings_loop requests_get DOM BeautifulSoup
                              get_location_name get_listing_urls
                              get_letting_information get_description
                              get_price get_address get_nearest_stations
                              clock strftime urlencode base_search_url
                              ids [] w).2)
            = (length (stdout w) + length ids)%nat.
Proof.
  intros rg DOM BS gln glu gli gd gp ga gns clock strftime ue base ids w.
  destruct (scrape_listings_loop_frame rg DOM BS gln glu gli gd gp ga gns
              clock strftime ue base ids [] w) as (Hc & Hw & Ho & Hcount).
  split; [exact Hc |]. split; [exact Hw |]. split; [exact Ho |].
  intros gathered Hg. destruct (Hcount gathered Hg) as [Ht Hs].
  simpl in Ht. split; [lia | exact Hs].
Qed.

(** ** rightmove_scraper.py: filtering *)

(** A lead time that takes the cutoff out of the calendar (before
    1 January of year 1 or past 31 December 9999) makes the call on a batch
    that is not empty raise [OverflowError], whatever the listings are;
    the clock has been read and the line printed by then. *)
Theorem cutoff_out_of_range_raises :
  forall clock has_date_available convert_daye (n_weeks : Z)
         (listings : list Listing) (w : World),
    listings <> [] ->
    ~ (1 <= date_part (clock (ticks w)) + 7 * n_weeks
       <= Datetime.max_ordinal)%Z ->
    get_listings_available_after_n_weeks clock has_date_available
      convert_daye n_weeks listings w
    = (Raise OverflowError,
       set_ticks (S (ticks w))
         (set_stdout
            (stdout w ++ ["Filtering listings down only those available after "
                          +:+ pretty n_weeks +:+ " weeks from now"]) w)).
Proof.
  intros clock has cd n listings w Hne Hout.
  rewrite get_listings_run by done. f_equal.
  unfold Datetime.timedelta_weeks, Datetime.date_add.
  case_match; [| done]. simpl.
  case_match; [| done]. exfalso. apply Hout. lia.
Qed.

Lemma cutoff_out_of_range_raises_witness :
  Scenario.three_listings <> []
  /\ (get_listings_available_after_n_weeks Scenario.clock
        Scenario.has_date_available (Some convert_date) 500000
        Scenario.three_listings (Scenario.world Scenario.config_ini)).1
     = Raise OverflowError.
Proof.
  split; [discriminate |].
  rewrite (cutoff_out_of_range_raises Scenario.clock
             Scenario.has_date_available (Some convert_date) 500000
             Scenario.three_listings (Scenario.world Scenario.config_ini)
             ltac:(discriminate)).
  - reflexivity.
  - unfold Datetime.max_ordinal. simpl. lia.
Defined.

(** With a lead time in the configuration, [filter_listings] reads the
    option under its lower-case name, converts its text with [int] and
    filters with that number of weeks; a text that [int] refuses makes the
    call raise before anything is printed or the clock is read. *)
Theorem filter_listings_reads_the_weeks :
  forall clock int has_date_available convert_daye (listings : list Listing)
         (w : World) options (value : string),
    assoc "filters" (config w) = Some options ->
    assoc "availableafternweeks" options = Some value ->
    value <> "" ->
    filter_listings clock int has_date_available convert_daye listings w
    = match int value with
      | Ok n_weeks =>
          get_listings_available_after_n_weeks clock has_date_available
            convert_daye n_weeks listings w
      | Raise e => (Raise e, w)
      end.
Proof.
  intros clock int has cd listings w options value Hsection Hoption Hvalue.
  unfold filter_listings, config_get, gets, lift, mbind, M_bind.
  rewrite Hsection. change (optionxform "availableAfterNWeeks")
    with "availableafternweeks". rewrite Hoption.
  unfold truthy, mret, M_ret.
  destruct (String.eqb_spec value "") as [->|_]; [done |].
  cbn [negb]. rewrite Hsection, Hoption. by destruct (int value).
Qed.

Lemma filter_listings_reads_the_weeks_witness :
  assoc "filters" (config (Scenario.world Scenario.config_ini))
  = Some Scenario.filters
  /\ Scenario.int "7" = Ok 7%Z
  /\ filter_listings Scenario.clock Scenario.int Scenario.has_date_available
       (Some convert_date) Scenario.three_listings
       (Scenario.world Scenario.config_ini)
     = get_listings_available_after_n_weeks Scenario.clock
         Scenario.has_date_available (Some convert_date) 7
         Scenario.three_listings (Scenario.world Scenario.config_ini).
Proof.
  split; [reflexivity |]. split; [reflexivity |].
  rewrite (filter_listings_reads_the_weeks Scenario.clock Scenario.int
             Scenario.has_date_available (Some convert_date)
             Scenario.three_listings (Scenario.world Scenario.config_ini)
             Scenario.filters "7" eq_refl eq_refl ltac:(discriminate)).
  reflexivity.
Defined.

(** ** rightmove_scraper.py: persisting and notifying *)

(** When a mail is sent, the outcome of [process_listings] is the outcome
    of the SMTP exchange: if that raises, [process_listings] raises the
    same exception, after the rows have been written, the summary printed
    and the dispatch made. *)
Theorem process_listings_ends_with_the_mail :
  forall propertyMappings exists_in sheet_name smtp (listings : list Listing)
         (w w1 : World) (written duplicates : nat) options,
    add_listings propertyMappings exists_in listings w
      = (Ok (S written, duplicates), w1) ->
    assoc "mailer" (config w) = Some options ->
    (process_listings propertyMappings exists_in sheet_name smtp listings w).1
    = smtp (dict options)
        (summary sheet_name (length listings) (S written) duplicates)
    /\ worksheet (process_listings propertyMappings exists_in sheet_name smtp
                    listings w).2 = worksheet w1
    /\ stdout (process_listings propertyMappings exists_in sheet_name smtp
                 listings w).2
       = stdout w1
         ++ [summary sheet_name (length listings) (S written) duplicates]
    /\ outbox (process_listings propertyMappings exists_in sheet_name smtp
                 listings w).2
       = outbox w
         ++ [(dict options,
              summary sheet_name (length listings) (S written) duplicates)].
Proof.
  intros pm ex name smtp listings w w1 written duplicates options Hadd Hmailer.
  pose proof (add_listings_frame pm ex listings w) as Hframe.
  rewrite Hadd in Hframe. simpl in Hframe. destruct Hframe as (Hc & _ & Ho & _).
  unfold process_listings. erewrite bind_Ok by exact Hadd.
  unfold print, config_has_section, config_items, new_list, list_read, send_mail.
  unfold modify, gets, lift, mbind, M_bind. simpl.
  rewrite Hc, Hmailer. simpl. rewrite Hc, Hmailer. simpl.
  rewrite lookup_app_r, Nat.sub_diag by lia. simpl. rewrite Ho.
  by destruct (smtp _ _).
Qed.

Lemma process_listings_ends_with_the_mail_witness :
  add_listings Scenario.propertyMappings Scenario.exists_in
    Scenario.two_listings (Scenario.world Scenario.config_with_mailer)
  = (Ok (2%nat, 0%nat),
     (add_listings Scenario.propertyMappings Scenario.exists_in
        Scenario.two_listings (Scenario.world Scenario.config_with_mailer)).2)
  /\ (process_listings Scenario.propertyMappings Scenario.exists_in
        Scenario.sheet_name (fun _ _ => Raise SMTPException)
        Scenario.two_listings (Scenario.world Scenario.config_with_mailer)).1
     = Raise SMTPException
  /\ worksheet
       (process_listings Scenario.propertyMappings Scenario.exists_in
          Scenario.sheet_name (fun _ _ => Raise SMTPException)
          Scenario.two_listings (Scenario.world Scenario.config_with_mailer)).2
     = [Scenario.header; [VStr "/p/3"; VStr "01/09/2020"];
        [VStr "/p/2"; VStr "16/08/2020"]].
Proof.
  assert (Hadd : add_listings Scenario.propertyMappings Scenario.exists_in
            Scenario.two_listings (Scenario.world Scenario.config_with_mailer)
          = (Ok (2%nat, 0%nat),
             (add_listings Scenario.propertyMappings Scenario.exists_in
                Scenario.two_listings
                (Scenario.world Scenario.config_with_mailer)).2)).
  { vm_compute. reflexivity. }
  split; [exact Hadd |].
  destruct (process_listings_ends_with_the_mail Scenario.propertyMappings
              Scenario.exists_in Scenario.sheet_name
              (fun _ _ => Raise SMTPException) Scenario.two_listings
              (Scenario.world Scenario.config_with_mailer) _ 1%nat 0%nat
              [("recipient", "me@example.com")] Hadd eq_refl)
    as (Hout & Hws & _).
  split; [exact Hout |]. rewrite Hws. vm_compute. reflexivity.
Defined.

(** ** rightmove_scraper.py: the dates [convert_date] returns *)

Section CalendarFacts.
Import Datetime.
Local Open Scope Z_scope.

(** The number of days of year [y]. *)
Let year_length (y : Z) : Z := if is_leap y then 366 else 365.

Lemma days_before_next_year y :
  days_before_year (y + 1) = days_before_year y + year_length y.
Proof.
  unfold days_before_year, year_length, is_leap.
  replace (y + 1 - 1) with y by lia.
  destruct (y mod 4 =? 0) eqn:H4; destruct (y mod 100 =? 0) eqn:H100;
    destruct (y mod 400 =? 0) eqn:H400; simpl;
    rewrite ?Z.eqb_eq, ?Z.eqb_neq in *;
    Z.div_mod_to_equations; lia.
Qed.

Lemma days_before_year_mono y y' :
  y < y' -> days_before_year y + year_length y <= days_before_year y'.
Proof.
  intros Hlt. rewrite <- days_before_next_year.
  unfold days_before_year. Z.div_mod_to_equations. lia.
Qed.

Local Ltac each_month m :=
  let H := fresh "Hmonth" in
  assert (H : m = 1 \/ m = 2 \/ m = 3 \/ m = 4 \/ m = 5 \/ m = 6 \/ m = 7
              \/ m = 8 \/ m = 9 \/ m = 10 \/ m = 11 \/ m = 12) by lia;
  repeat (destruct H as [->|H]); [.. | subst m].

Lemma days_before_month_step y m m' :
  1 <= m -> m < m' -> m' <= 12 ->
  days_before_month y m + days_in_month y m <= days_before_month y m'.
Proof.
  intros H1 Hlt H12. unfold days_before_month, days_in_month.
  each_month m; each_month m'; try lia;
    simpl; unfold days_in_month; destruct (is_leap y); simpl; lia.
Qed.

Lemma days_in_year y m d :
  1 <= m <= 12 -> 1 <= d <= days_in_month y m ->
  1 <= days_before_month y m + d <= year_length y.
Proof.
  intros Hm. unfold days_before_month, days_in_month, year_length.
  each_month m; simpl; unfold days_in_month; destruct (is_leap y); simpl; lia.
Qed.

Lemma ymd2ord_Ok y m d o :
  ymd2ord y m d = Ok o ->
  1 <= y <= 9999 /\ 1 <= m <= 12 /\ 1 <= d <= days_in_month y m
  /\ o = days_before_year y + days_before_month y m + d.
Proof.
  unfold ymd2ord. case_match eqn:Hvalid; [| discriminate].
  intros [= <-]. rewrite !andb_true_iff, !Z.leb_le in Hvalid. lia.
Qed.

(** An earlier day of the calendar has a smaller ordinal. *)
Lemma ymd2ord_mono y m d o y' m' d' o' :
  ymd2ord y m d = Ok o -> ymd2ord y' m' d' = Ok o' ->
  y < y' \/ (y = y' /\ (m < m' \/ (m = m' /\ d < d'))) ->
  o < o'.
Proof.
  intros (Hy & Hm & Hd & ->)%ymd2ord_Ok (Hy' & Hm' & Hd' & ->)%ymd2ord_Ok.
  intros [Hlt|[<- [Hlt|[<- Hlt]]]].
  - pose proof (days_before_year_mono y y' Hlt).
    pose proof (days_in_year y m d Hm Hd).
    pose proof (days_in_year y' m' d' Hm' Hd'). lia.
  - pose proof (days_before_month_step y m m' ltac:(lia) Hlt ltac:(lia)). lia.
  - lia.
Qed.
End CalendarFacts.

(** [convert_date] orders the texts it reads by the calendar, not as
    texts: of two dates written day/month/year, the one converted to the
    smaller value is the one with the earlier year, or the earlier month of
    the same year, or the earlier day of the same month. *)
Theorem convert_date_is_chronological :
  forall (d m y d' m' y' : Z) (o o' : date),
    (1 <= d <= 31)%Z -> (1 <= m <= 12)%Z -> (0 <= y <= 9999)%Z ->
    (1 <= d' <= 31)%Z -> (1 <= m' <= 12)%Z -> (0 <= y' <= 9999)%Z ->
    convert_date (VStr (Datetime.format_dmY d m y)) = Ok o ->
    convert_date (VStr (Datetime.format_dmY d' m' y')) = Ok o' ->
    ((o < o')%Z <->
     (y < y' \/ (y = y' /\ (m < m' \/ (m = m' /\ d < d'))))%Z).
Proof.
  intros d m y d' m' y' o o' Hd Hm Hy Hd' Hm' Hy'. simpl.
  rewrite !strptime_format by done. intros Ho Ho'. split.
  - intros Hlt.
    destruct (Z.lt_trichotomy y y') as [?|[<-|Hgt]]; [by left | |].
    + destruct (Z.lt_trichotomy m m') as [?|[<-|Hgt]]; [by right; split; [|left] | |].
      * destruct (Z.lt_trichotomy d d') as [?|[<-|Hgt]].
        -- right. split; [done |]. right. by split.
        -- rewrite Ho in Ho'. injection Ho' as <-. lia.
        -- pose proof (ymd2ord_mono _ _ _ _ _ _ _ _ Ho' Ho
                         ltac:(right; split; [done |]; right; by split)). lia.
      * pose proof (ymd2ord_mono _ _ _ _ _ _ _ _ Ho' Ho
                      ltac:(right; split; [done |]; by left)). lia.
    + pose proof (ymd2ord_mono _ _ _ _ _ _ _ _ Ho' Ho ltac:(by left)). lia.
  - intros Hlex. by eapply ymd2ord_mono.
Qed.

Lemma convert_date_is_chronological_witness :
  Datetime.format_dmY 31 12 2020 = "31/12/2020"
  /\ Datetime.format_dmY 2 1 2021 = "02/01/2021"
  /\ convert_date (VStr "31/12/2020") = Ok 737790%Z
  /\ convert_date (VStr "02/01/2021") = Ok 737792%Z
  /\ ((737790 < 737792)%Z <->
      (2020 < 2021 \/ (2020 = 2021 /\ (12 < 1 \/ (12 = 1 /\ 31 < 2))))%Z).
Proof.
  split; [reflexivity |]. split; [reflexivity |].
  split; [reflexivity |]. split; [reflexivity |].
  apply (convert_date_is_chronological 31 12 2020 2 1 2021 737790%Z 737792%Z);
    first [lia | reflexivity].
Defined.

(** ** rightmove_scraper.py: a configuration without its [filters] section *)

(** Without a [filters] section in the configuration, a run with at least
    one location raises [NoSectionError] in [build_search_url], before
    anything is fetched or printed, and so does [filter_listings]. *)
Theorem missing_filters_section_raises :
  forall requests_get DOM BeautifulSoup get_location_name get_listing_urls
         get_letting_information get_description get_price get_address
         get_nearest_stations clock strftime urlencode base_search_url
         remove_duplicate_listings int has_date_available convert_daye
         (id : string) (ids : list string) (listings : list Listing)
         (w : World),
    assoc "filters" (config w) = None ->
    scrape_listings requests_get DOM BeautifulSoup get_location_name
      get_listing_urls get_letting_information get_description get_price
      get_address get_nearest_stations clock strftime urlencode
      base_search_url remove_duplicate_listings (id :: ids) w
    = (Raise (NoSectionError "filters"), w)
    /\ filter_listings clock int has_date_available convert_daye listings w
       = (Raise (NoSectionError "filters"), w).
Proof.
  intros rg DOM BS gln glu gli gd gp ga gns clock strftime ue base rdl int
    has cd id ids listings w Hnone.
  split.
  - unfold scrape_listings. simpl.
    unfold build_search_url, config_items, gets, raise, lift, mbind, M_bind.
    by rewrite Hnone.
  - unfold filter_listings, config_get, gets, raise, lift, mbind, M_bind.
    by rewrite Hnone.
Qed.

Lemma missing_filters_section_raises_witness :
  assoc "filters" (config (Scenario.world [("mailer", [])])) = None
  /\ (Scenario.scrape_listings_on Scenario.requests_get
        ("REGION^93802" :: []) (Scenario.world [("mailer", [])])).1
     = Raise (NoSectionError "filters").
Proof.
  split; [reflexivity |].
  rewrite (proj1 (missing_filters_section_raises Scenario.requests_get
             Scenario.Page Scenario.BeautifulSoup Scenario.location_name
             Scenario.listing_urls Scenario.letting_information
             Scenario.detail Scenario.detail Scenario.detail Scenario.detail
             Scenario.clock Scenario.strftime Scenario.urlencode
             Scenario.base_search_url remove_duplicate_listings
             Scenario.int Scenario.has_date_available None
             "REGION^93802" [] [] (Scenario.world [("mailer", [])]) eq_refl)).
  reflexivity.
Defined.
